(** * pulp_python: content creation and task dispatch of [pulp_python/app/viewsets.py]

    A shallow embedding of the three view sets of the plugin:
    - [PythonPackageContentViewSet.create]: detect the distribution format
      from the file name, read the package metadata from a copy of the
      artifact in a temporary directory, build the serializer data and save
      the content unit inside one database transaction;
    - [PythonRemoteViewSet.sync] and [PythonPublisherViewSet.publish]: validate
      the request and hand a task to [enqueue_with_reservation] together with
      the resources it reserves.

    Python exceptions are values of [Exception]; a handler is a function from
    the state of the world to an outcome and a new state, so that what an
    exception leaves behind (files, rows, queue entries) stays visible. *)

From Stdlib Require Import String Ascii List Bool Arith Permutation.
From stdpp Require Import gmap strings pretty.
Import ListNotations.
Local Open Scope string_scope.
Local Open Scope list_scope.
Set Warnings "-register-all".

(** ** Python values and exceptions *)

(** The values that travel through the view set: attribute values of a
    pkginfo object, entries of the serializer data. A nested dict (the
    [{'name': classifier}] records) keeps its items in insertion order. *)
Inductive Value : Type :=
| VNone
| VStr (s : string)
| VList (l : list Value)
| VDict (items : list (string * Value)).

(** [detail] of a [rest_framework.serializers.ValidationError]: either a dict
    from a field name to a message, or one message. *)
Inductive Detail : Type :=
| FieldDetail (field : string) (message : string)
| MessageDetail (message : string).

Inductive Exception : Type :=
| ValidationError (detail : Detail)
| KeyError (key : string)
| AttributeError (message : string)
| OtherException (name : string) (message : string).


(** ** Suffix test and the extension tables *)

Module Format.

(** [str.endswith]: some tail of [s], [s] itself included, is [ext]. *)
Fixpoint endswith (s ext : string) : bool :=
  if String.eqb s ext then true
  else match s with
       | EmptyString => false
       | String _ s' => endswith s' ext
       end.

(** [DIST_EXTENSIONS], in the order the dict literal lists its items, which
    is the order [.items()] yields them. *)
Definition DIST_EXTENSIONS : list (string * string) :=
  [ (".whl", "bdist_wheel");
    (".exe", "bdist_wininst");
    (".egg", "bdist_egg");
    (".tar.bz2", "sdist");
    (".tar.gz", "sdist");
    (".zip", "sdist") ].

(** The classes of [DIST_TYPES], by name. *)
Inductive Reader : Type :=
| Wheel          (* pkginfo.Wheel *)
| Distribution   (* pkginfo.Distribution *)
| BDist          (* pkginfo.BDist *)
| SDist.         (* pkginfo.SDist *)

(** [DIST_TYPES[packagetype]]; a key outside the table is a [KeyError]. *)
Definition DIST_TYPES (packagetype : string) : option Reader :=
  if String.eqb packagetype "bdist_wheel" then Some Wheel
  else if String.eqb packagetype "bdist_wininst" then Some Distribution
  else if String.eqb packagetype "bdist_egg" then Some BDist
  else if String.eqb packagetype "sdist" then Some SDist
  else None.

(** The item at which the loop [for ext, packagetype in ...: if
    filename.endswith(ext): ...; break] stops; [None] when the loop runs to
    its [else] clause. *)
Fixpoint first_match (items : list (string * string)) (filename : string)
  : option (string * string) :=
  match items with
  | [] => None
  | (ext, packagetype) :: rest =>
      if endswith filename ext then Some (ext, packagetype)
      else first_match rest filename
  end.

Definition detect (filename : string) : option (string * string) :=
  first_match DIST_EXTENSIONS filename.

(** The message of the [else] clause:
    ["Extension on {} is not a valid python extension (...)".format(filename)]. *)
Definition unsupported_message (filename : string) : string :=
  "Extension on " +:+ filename +:+
  " is not a valid python extension (.whl, .exe, .egg, .tar.gz, .tar.bz2, .zip)".

(** The extensions the message lists, in the order it lists them. *)
Definition listed_extensions : list string :=
  [".whl"; ".exe"; ".egg"; ".tar.gz"; ".tar.bz2"; ".zip"].

(** [sep.join(parts)] *)
Fixpoint join (sep : string) (parts : list string) : string :=
  match parts with
  | [] => ""
  | [p] => p
  | p :: rest => p +:+ sep +:+ join sep rest
  end.

End Format.

(** ** Creating a content unit *)

Module Content.
Import Format.

(** An [Artifact] row: its key and [artifact.file.path]. *)
Record Artifact : Type := { artifact_pk : nat; artifact_path : string }.

(** The object a pkginfo class builds from a file. [md_version] and
    [md_classifiers] are the attributes the view set reads; [md_packagetype]
    is the attribute it assigns ([VNone] until then); [md_attrs] holds the
    other attributes that [vars(metadata)] shows. *)
Record Metadata : Type := {
  md_version : Value;
  md_classifiers : list string;
  md_packagetype : Value;
  md_attrs : gmap string Value
}.

(** [metadata.packagetype = packagetype] *)
Definition set_packagetype (m : Metadata) (packagetype : string) : Metadata :=
  {| md_version := md_version m;
     md_classifiers := md_classifiers m;
     md_packagetype := VStr packagetype;
     md_attrs := md_attrs m |}.

(** Modelled from the spec: the content unit that
    [pulp_python.app.models.PythonPackageContent] stores, with the attributes
    the spec gives a PackageContentUnit: name, version, packagetype and
    filename (required), author, summary and keywords, the classifiers as an
    ordered sequence in which duplicates are allowed, and the reference to
    the artifact. *)
Record PackageContent : Type := {
  pc_name : string;
  pc_version : string;
  pc_packagetype : string;
  pc_filename : string;
  pc_author : option string;
  pc_summary : option string;
  pc_keywords : option string;
  pc_classifiers : list string;
  pc_artifact : string
}.

Record Response : Type := { status : nat; body : PackageContent }.

Definition HTTP_201_CREATED : nat := 201.

(** What the handler does outside the database, oldest first. *)
Inductive Event : Type :=
| EvMkdtemp (td : nat)                   (* TemporaryDirectory() entered *)
| EvCopy (src dst : string)              (* shutil.copy2(src, dst) called *)
| EvRead (cls : Reader) (path : string)  (* DIST_TYPES[packagetype](path) called *)
| EvCleanup (td : nat).                  (* the directory removed on leaving [with] *)

(** The state a request runs against: the rows of the content table, the
    temporary directories that exist, and the log of events. *)
Record World : Type := {
  content : list PackageContent;
  tmpdirs : gset nat;
  events : list Event
}.

Definition set_content (w : World) (c : list PackageContent) : World :=
  {| content := c; tmpdirs := tmpdirs w; events := events w |}.

Definition set_tmpdirs (w : World) (t : gset nat) : World :=
  {| content := content w; tmpdirs := t; events := events w |}.

Definition log (w : World) (e : Event) : World :=
  {| content := content w; tmpdirs := tmpdirs w; events := events w ++ [e] |}.

(** A computation that may raise: the outcome and the state it leaves. *)
Definition M (A : Type) : Type := World -> (Exception + A) * World.

Definition ret {A} (a : A) : M A := fun w => (inr a, w).

Definition raise {A} (e : Exception) : M A := fun w => (inl e, w).

Definition bind {A B} (c : M A) (k : A -> M B) : M B :=
  fun w => match c w with
           | (inl e, w') => (inl e, w')
           | (inr a, w') => k a w'
           end.

(** A call of a function that touches nothing of the state. *)
Definition lift {A} (r : Exception + A) : M A := fun w => (r, w).

Definition emit (e : Event) : M unit := fun w => (inr tt, log w e).

Notation "'let*' x ':=' c 'in' k" := (bind c (fun x => k))
  (at level 10, x name, c at level 100, k at level 200).

(** [try: body except KeyError: handler] *)
Definition try_except_KeyError {A} (body handler : M A) : M A :=
  fun w => match body w with
           | (inl (KeyError _), w') => handler w'
           | r => r
           end.

(** [@transaction.atomic]: an exception that leaves the function undoes the
    writes to the database; what was done outside the database stays. *)
Definition atomic {A} (body : M A) : M A :=
  fun w => match body w with
           | (inl e, w') => (inl e, set_content w' (content w))
           | (inr a, w') => (inr a, w')
           end.

(** [with tempfile.TemporaryDirectory() as td: body]: a directory with a
    name that is not in use is created, and it is removed when the block is
    left, by its end, by [break] or by an exception. *)
Definition with_TemporaryDirectory {A} (body : nat -> M A) : M A :=
  fun w =>
    let td := fresh (tmpdirs w) in
    let w1 := log (set_tmpdirs w ({[td]} ∪ tmpdirs w)) (EvMkdtemp td) in
    let '(r, w2) := body td w1 in
    (r, log (set_tmpdirs w2 (tmpdirs w2 ∖ {[td]})) (EvCleanup td)).

(** The path of a temporary directory. *)
Definition td_path (td : nat) : string := "/tmp/tmp" +:+ pretty td.

Definition startswith_sep (s : string) : bool :=
  match s with
  | String c _ => Ascii.eqb c "/"
  | EmptyString => false
  end.

(** [os.path.join(a, b)] of posixpath: an absolute [b] replaces [a]. *)
Definition os_path_join (a b : string) : string :=
  if startswith_sep b then b
  else if String.eqb a "" || endswith a "/" then a +:+ b
  else a +:+ "/" +:+ b.

(** [request.data[key]] *)
Definition getitem (data : gmap string string) (key : string) : M string :=
  match data !! key with
  | Some v => ret v
  | None => raise (KeyError key)
  end.

(** The collaborators of the view set that live outside this file. *)
Class Collaborators : Type := {
  (** [self.get_resource(uri, Artifact)] of the platform's view sets. *)
  get_resource : string -> Exception + Artifact;
  (** [shutil.copy2(src, dst)]; [None] when the copy is made. *)
  copy2 : string -> string -> option Exception;
  (** Calling a pkginfo class on a path. *)
  pkginfo_read : Reader -> string -> Exception + Metadata;
  (** [pulp_python.app.utils.parse_project_metadata], applied to
      [vars(metadata)]. *)
  parse_project_metadata : Metadata -> gmap string Value;
  (** Constraints of the serializer's schema beyond the required fields. *)
  schema_errors : gmap string Value -> option Detail;
  (** Rendering [serializer.data] for the response. *)
  to_representation : PackageContent -> Exception + PackageContent
}.

Section Create.
Context `{Collaborators}.

(** A required string field of the serializer data. *)
Definition required_field (data : gmap string Value) (field : string)
  : Exception + string :=
  match data !! field with
  | Some (VStr s) => inr s
  | _ => inl (ValidationError (FieldDetail field "This field is required"))
  end.

Definition optional_field (data : gmap string Value) (field : string)
  : option string :=
  match data !! field with
  | Some (VStr s) => Some s
  | _ => None
  end.

(** The names of a list of [{'name': classifier}] records, in order. *)
Fixpoint classifier_names (l : list Value) : option (list string) :=
  match l with
  | [] => Some []
  | VDict [(k, VStr c)] :: rest =>
      if String.eqb k "name"
      then match classifier_names rest with
           | Some cs => Some (c :: cs)
           | None => None
           end
      else None
  | _ => None
  end.

Definition classifiers_field (data : gmap string Value)
  : Exception + list string :=
  match data !! "classifiers" with
  | None => inr []
  | Some (VList l) =>
      match classifier_names l with
      | Some cs => inr cs
      | None => inl (ValidationError (FieldDetail "classifiers" "Invalid data"))
      end
  | Some _ => inl (ValidationError (FieldDetail "classifiers" "Invalid data"))
  end.

Definition and_then {A B} (r : Exception + A) (k : A -> Exception + B)
  : Exception + B :=
  match r with
  | inl e => inl e
  | inr a => k a
  end.

(** Modelled from the spec: [serializer.is_valid(raise_exception=True)] of
    [pulp_python.app.serializers.PythonPackageContentSerializer], which is
    not part of this file. The registrar "validates a normalized record
    against schema constraints" and rejects "records missing any field the
    canonical schema marks required": name, version, packagetype and
    filename, and the artifact reference; author, summary and keywords are
    optional; the classifiers are a sequence of classifier records. A
    failure is a validation error with field-level detail. *)
Definition is_valid (data : gmap string Value) : Exception + PackageContent :=
  and_then (required_field data "name") (fun name =>
  and_then (required_field data "version") (fun version =>
  and_then (required_field data "packagetype") (fun packagetype =>
  and_then (required_field data "filename") (fun filename =>
  and_then (required_field data "artifact") (fun artifact =>
  and_then (classifiers_field data) (fun classifiers =>
  match schema_errors data with
  | Some d => inl (ValidationError d)
  | None =>
      inr {| pc_name := name;
             pc_version := version;
             pc_packagetype := packagetype;
             pc_filename := filename;
             pc_author := optional_field data "author";
             pc_summary := optional_field data "summary";
             pc_keywords := optional_field data "keywords";
             pc_classifiers := classifiers;
             pc_artifact := artifact |}
  end)))))).

Definition same_submission (u v : PackageContent) : bool :=
  String.eqb (pc_artifact u) (pc_artifact v)
  && String.eqb (pc_filename u) (pc_filename v).

(** Modelled from the spec: [self.perform_create(serializer)], which saves
    through the serializer and the model of the plugin, not part of this
    file. The persistence layer makes a "transactional create of a
    PackageContentUnit" with "uniqueness enforcement on (artifact,
    filename)"; a duplicate is rejected with [ConflictError], as the spec
    recommends, and no second unit is created. *)
Definition perform_create (u : PackageContent) : M unit :=
  fun w =>
    if existsb (same_submission u) (content w)
    then (inl (OtherException "ConflictError" "duplicate content unit"), w)
    else (inr tt, set_content w (content w ++ [u])).

(** [shutil.copy2(artifact.file.path, temp_path)] *)
Definition shutil_copy2 (src dst : string) : M unit :=
  let* _ := emit (EvCopy src dst) in
  lift (match copy2 src dst with
        | Some e => inl e
        | None => inr tt
        end).

(** [DIST_TYPES[packagetype](temp_path)] *)
Definition read (packagetype path : string) : M Metadata :=
  match DIST_TYPES packagetype with
  | None => raise (KeyError packagetype)
  | Some cls =>
      let* _ := emit (EvRead cls path) in
      lift (pkginfo_read cls path)
  end.

(** The body of the loop for the extension that matched: the artifact is
    copied into a temporary directory under the file name of the request,
    the copy is read, and the metadata object is tagged with the package
    type of the extension. *)
Definition extract (artifact : Artifact) (filename packagetype : string)
  : M Metadata :=
  with_TemporaryDirectory (fun td =>
    let temp_path := os_path_join (td_path td) filename in
    let* _ := shutil_copy2 (artifact_path artifact) temp_path in
    let* metadata := read packagetype temp_path in
    ret (set_packagetype metadata packagetype)).

(** The [for ... else] loop over the items of [DIST_EXTENSIONS]: at the
    first extension the file name ends with, the body runs and the loop
    breaks; the [else] clause runs when no extension matched. *)
Fixpoint read_metadata (items : list (string * string))
    (artifact : Artifact) (filename : string) : M Metadata :=
  match items with
  | [] =>
      raise (ValidationError (MessageDetail (unsupported_message filename)))
  | (ext, packagetype) :: rest =>
      if endswith filename ext then extract artifact filename packagetype
      else read_metadata rest artifact filename
  end.

(** The serializer data built from the metadata object: the dict of
    [parse_project_metadata], then the five assignments. *)
Definition build_data (metadata : Metadata) (filename artifact_uri : string)
  : gmap string Value :=
  let data := parse_project_metadata metadata in
  let data := <["classifiers" :=
                 VList (map (fun classifier => VDict [("name", VStr classifier)])
                            (md_classifiers metadata))]> data in
  let data := <["packagetype" := md_packagetype metadata]> data in
  let data := <["version" := md_version metadata]> data in
  let data := <["filename" := VStr filename]> data in
  <["artifact" := VStr artifact_uri]> data.

(** The second half of [create]: the serializer data is built, validated
    and saved, and the response shows the saved unit. *)
Definition register (metadata : Metadata) (filename : string)
    (request_data : gmap string string) : M Response :=
  let* artifact_uri := getitem request_data "artifact" in
  let data := build_data metadata filename artifact_uri in
  let* unit := lift (is_valid data) in
  let* _ := perform_create unit in
  let* shown := lift (to_representation unit) in
  ret {| status := HTTP_201_CREATED; body := shown |}.

(** The body of [create]. *)
Definition create_body (request_data : gmap string string) : M Response :=
  let* artifact :=
    try_except_KeyError
      (let* uri := getitem request_data "artifact" in lift (get_resource uri))
      (raise (ValidationError (FieldDetail "artifact" "This field is required")))
  in
  let* filename :=
    try_except_KeyError
      (getitem request_data "filename")
      (raise (ValidationError (FieldDetail "filename" "This field is required")))
  in
  let* metadata := read_metadata DIST_EXTENSIONS artifact filename in
  register metadata filename request_data.

(** [PythonPackageContentViewSet.create], under [@transaction.atomic]. *)
Definition create (request_data : gmap string string) : M Response :=
  atomic (create_body request_data).

(** Reading a unit back from the content table by the pair that
    identifies a submission. *)
Definition read_back (w : World) (artifact_uri filename : string)
  : option PackageContent :=
  find (fun u => String.eqb (pc_artifact u) artifact_uri
                 && String.eqb (pc_filename u) filename)
       (content w).

End Create.

(** The events of copying and reading, the only ones between the creation
    and the removal of a temporary directory. *)
Definition is_extraction (e : Event) : bool :=
  match e with
  | EvCopy _ _ | EvRead _ _ => true
  | _ => false
  end.

End Content.

(** ** Dispatching sync and publish tasks *)

Module Dispatch.

Record Repository : Type := { repository_pk : nat }.
Record Remote : Type := { remote_pk : nat }.
Record Publisher : Type := { publisher_pk : nat }.

(** A row of the repository-version ledger of the platform. *)
Record RepositoryVersion : Type := {
  version_pk : nat;
  repository : Repository;
  number : nat
}.

(** The model instances a task may reserve. *)
Inductive Resource : Type :=
| RepositoryResource (r : Repository)
| RemoteResource (r : Remote)
| PublisherResource (p : Publisher).

(** The task function with its [kwargs]. *)
Inductive Task : Type :=
| TaskSync (remote_pk repository_pk : nat) (mirror : option bool)
| TaskPublish (publisher_pk repository_version_pk : nat).

(** What [enqueue_with_reservation(func, resources, kwargs=...)] receives. *)
Record Job : Type := { job_task : Task; job_resources : list Resource }.

(** The reads and writes of a handler against the platform, oldest first. *)
Inductive Event : Type :=
| EvLatest (r : Repository)   (* RepositoryVersion.latest(r) read the ledger *)
| EvEnqueue (j : Job).        (* the job queued and its resources reserved *)

Record World : Type := {
  remotes : list Remote;
  publishers : list Publisher;
  versions : list RepositoryVersion;
  queue : list Job;
  events : list Event
}.

Definition log (w : World) (e : Event) : World :=
  {| remotes := remotes w; publishers := publishers w; versions := versions w;
     queue := queue w; events := events w ++ [e] |}.

Definition push (w : World) (j : Job) : World :=
  {| remotes := remotes w; publishers := publishers w; versions := versions w;
     queue := queue w ++ [j]; events := events w |}.

Definition M (A : Type) : Type := World -> (Exception + A) * World.

Definition ret {A} (a : A) : M A := fun w => (inr a, w).

Definition raise {A} (e : Exception) : M A := fun w => (inl e, w).

Definition bind {A B} (c : M A) (k : A -> M B) : M B :=
  fun w => match c w with
           | (inl e, w') => (inl e, w')
           | (inr a, w') => k a w'
           end.

Definition lift {A} (r : Exception + A) : M A := fun w => (r, w).

Notation "'let*' x ':=' c 'in' k" := (bind c (fun x => k))
  (at level 10, x name, c at level 100, k at level 200).

Definition Http404 : Exception := OtherException "Http404" "Not found.".

Definition NoneType_has_no (attr : string) : Exception :=
  AttributeError ("'NoneType' object has no attribute '" +:+ attr +:+ "'").

Definition repository_eqb (a b : Repository) : bool :=
  Nat.eqb (repository_pk a) (repository_pk b).

(** The later of two versions of one repository. *)
Definition later (v v' : RepositoryVersion) : RepositoryVersion :=
  if Nat.ltb (number v) (number v') then v' else v.

(** The version of [r] with the highest number in a ledger. *)
Fixpoint latest_of (ledger : list RepositoryVersion) (r : Repository)
  : option RepositoryVersion :=
  match ledger with
  | [] => None
  | v :: rest =>
      if repository_eqb (repository v) r
      then match latest_of rest r with
           | Some v' => Some (later v v')
           | None => Some v
           end
      else latest_of rest r
  end.

(** [RepositoryVersion.latest(repository)] of the platform: the latest
    version of the repository, [None] when it has none; called on [None] it
    fails on the attribute access. *)
Definition latest (r : option Repository) : M (option RepositoryVersion) :=
  match r with
  | None => raise (NoneType_has_no "versions")
  | Some r => fun w => (inr (latest_of (versions w) r), log w (EvLatest r))
  end.

(** [enqueue_with_reservation] of the platform: the job joins the queue with
    the resources it reserves; the handle is its place in the queue. *)
Definition enqueue_with_reservation (task : Task) (resources : list Resource)
  : M nat :=
  fun w =>
    let j := {| job_task := task; job_resources := resources |} in
    (inr (length (queue w)), log (push w j) (EvEnqueue j)).

(** [self.get_object()] of the remote view set: the remote the URL names. *)
Definition get_remote (pk : nat) : M Remote :=
  fun w => match find (fun r => Nat.eqb (remote_pk r) pk) (remotes w) with
           | Some r => (inr r, w)
           | None => (inl Http404, w)
           end.

(** [self.get_object()] of the publisher view set. *)
Definition get_publisher (pk : nat) : M Publisher :=
  fun w => match find (fun p => Nat.eqb (publisher_pk p) pk) (publishers w) with
           | Some p => (inr p, w)
           | None => (inl Http404, w)
           end.

(** The data of a sync request, hyperlinks resolved. *)
Record SyncData : Type := {
  sync_repository : option Repository;
  sync_mirror : option bool
}.

(** The data of a publish request, hyperlinks resolved: a field the request
    does not supply is [None]. *)
Record PublishData : Type := {
  publish_repository_version : option RepositoryVersion;
  publish_repository : option Repository
}.

Definition InvalidRequest : Exception :=
  ValidationError (MessageDetail
    "Either the 'repository' or 'repository_version' need to be specified but not both.").

(** Modelled from the spec: the validation of
    [RepositoryPublishURLSerializer], which the platform provides and the
    handler relies on ("version OR repository is enforced by serializer").
    For publish, "exactly one of an explicit repository-version or a
    repository-to-resolve-to-latest must be supplied"; a request "supplying
    both [repository_version] and [repository] is rejected with
    [InvalidRequest]; supplying neither is likewise rejected". The fields of
    an accepted request pass through as they are. *)
Definition RepositoryPublishURLSerializer (data : PublishData)
  : Exception + PublishData :=
  match publish_repository_version data, publish_repository data with
  | Some _, Some _ => inl InvalidRequest
  | None, None => inl InvalidRequest
  | _, _ => inr data
  end.

(** [RepositorySyncURLSerializer] of the platform, whatever it accepts. *)
Class Platform : Type := {
  RepositorySyncURLSerializer : SyncData -> Exception + SyncData
}.

Section Handlers.
Context `{Platform}.

(** [PythonRemoteViewSet.sync]: the handle of the queued task. The
    resource list is built before [repository.pk] is read for the kwargs,
    so a missing repository fails there and nothing is queued. *)
Definition sync (pk : nat) (request_data : SyncData) : M nat :=
  let* remote := get_remote pk in
  let* validated_data := lift (RepositorySyncURLSerializer request_data) in
  let repository := sync_repository validated_data in
  let mirror := sync_mirror validated_data in
  match repository with
  | None => raise (NoneType_has_no "pk")
  | Some repository =>
      enqueue_with_reservation
        (TaskSync (remote_pk remote) (repository_pk repository) mirror)
        [RepositoryResource repository; RemoteResource remote]
  end.

End Handlers.

(** [PythonPublisherViewSet.publish]: the handle of the queued task. *)
Definition publish (pk : nat) (request_data : PublishData) : M nat :=
  let* publisher := get_publisher pk in
  let* validated_data := lift (RepositoryPublishURLSerializer request_data) in
  let* repository_version :=
    match publish_repository_version validated_data with
    | Some v => ret (Some v)
    | None => latest (publish_repository validated_data)
    end in
  match repository_version with
  | None => raise (NoneType_has_no "repository")
  | Some repository_version =>
      enqueue_with_reservation
        (TaskPublish (publisher_pk publisher) (version_pk repository_version))
        [RepositoryResource (repository repository_version);
         PublisherResource publisher]
  end.

(** The repository version a publish request stands for in a world: the one
    it supplies, or else the latest of the repository it supplies. *)
Definition resolved (w : World) (data : PublishData) : option RepositoryVersion :=
  match publish_repository_version data with
  | Some v => Some v
  | None =>
      match publish_repository data with
      | Some r => latest_of (versions w) r
      | None => None
      end
  end.

(** The events a handler added to those of the world it started from. *)
Definition new_events (w w' : World) : list Event :=
  drop (length (events w)) (events w').

(** Whether every read of the latest version in a sequence of events comes
    after an enqueue, that is, after a reservation was declared;
    [reserved] tells whether one was declared before the sequence. *)
Fixpoint reads_under_reservation (reserved : bool) (evs : list Event) : bool :=
  match evs with
  | [] => true
  | EvEnqueue _ :: rest => reads_under_reservation true rest
  | EvLatest _ :: rest => reserved && reads_under_reservation reserved rest
  end.

Definition resource_eqb (a b : Resource) : bool :=
  match a, b with
  | RepositoryResource r, RepositoryResource r' =>
      Nat.eqb (repository_pk r) (repository_pk r')
  | RemoteResource r, RemoteResource r' => Nat.eqb (remote_pk r) (remote_pk r')
  | PublisherResource p, PublisherResource p' =>
      Nat.eqb (publisher_pk p) (publisher_pk p')
  | _, _ => false
  end.

(** Two resource lists overlap when they share a resource. *)
Definition overlap (rs rs' : list Resource) : bool :=
  existsb (fun a => existsb (resource_eqb a) rs') rs.

End Dispatch.

(** ** Sample requests and worlds *)

Module Samples.
Import Format.

(** An upload of a source distribution against an empty content table. *)
Definition stored_artifact : Content.Artifact :=
  {| Content.artifact_pk := 1;
     Content.artifact_path := "/var/lib/pulp/artifact/3f/9a2c" |}.

Definition shelf_reader : Content.Metadata :=
  {| Content.md_version := VStr "0.1";
     Content.md_classifiers :=
       ["Development Status :: 4 - Beta";
        "Programming Language :: Python :: 3";
        "Development Status :: 4 - Beta"];
     Content.md_packagetype := VNone;
     Content.md_attrs := {["name" := VStr "shelf-reader"]} |}.

(** Every collaborator does its work. *)
Definition healthy : Content.Collaborators :=
  {| Content.get_resource := fun _ => inr stored_artifact;
     Content.copy2 := fun _ _ => None;
     Content.pkginfo_read := fun _ _ => inr shelf_reader;
     Content.parse_project_metadata := fun m => Content.md_attrs m;
     Content.schema_errors := fun _ => None;
     Content.to_representation := fun u => inr u |}.

(** The reader raises on the copy. *)
Definition broken_reader : Content.Collaborators :=
  {| Content.get_resource := fun _ => inr stored_artifact;
     Content.copy2 := fun _ _ => None;
     Content.pkginfo_read :=
       fun _ _ => inl (OtherException "ValueError" "No PKG-INFO in archive");
     Content.parse_project_metadata := fun m => Content.md_attrs m;
     Content.schema_errors := fun _ => None;
     Content.to_representation := fun u => inr u |}.


(** The unit is saved and then cannot be rendered for the response. *)
Definition unrenderable : Content.Collaborators :=
  {| Content.get_resource := fun _ => inr stored_artifact;
     Content.copy2 := fun _ _ => None;
     Content.pkginfo_read := fun _ _ => inr shelf_reader;
     Content.parse_project_metadata := fun m => Content.md_attrs m;
     Content.schema_errors := fun _ => None;
     Content.to_representation :=
       fun _ => inl (OtherException "ImproperlyConfigured" "no URL for the unit") |}.

(** The unit the upload is saved as. *)
Definition saved_shelf_reader : Content.PackageContent :=
  {| Content.pc_name := "shelf-reader";
     Content.pc_version := "0.1";
     Content.pc_packagetype := "sdist";
     Content.pc_filename := "shelf-reader-0.1.tar.gz";
     Content.pc_author := None;
     Content.pc_summary := None;
     Content.pc_keywords := None;
     Content.pc_classifiers :=
       ["Development Status :: 4 - Beta";
        "Programming Language :: Python :: 3";
        "Development Status :: 4 - Beta"];
     Content.pc_artifact := "/pulp/api/v3/artifacts/1/" |}.

Definition empty_table : Content.World :=
  {| Content.content := []; Content.tmpdirs := ∅; Content.events := [] |}.

Definition upload : gmap string string :=
  {[ "artifact" := "/pulp/api/v3/artifacts/1/";
     "filename" := "shelf-reader-0.1.tar.gz" ]}.


Definition upload_of_text : gmap string string :=
  {[ "artifact" := "/pulp/api/v3/artifacts/1/"; "filename" := "notes.txt" ]}.

(** A platform with one remote, one publisher and one repository that has
    two versions. *)
Definition pypi : Dispatch.Remote := {| Dispatch.remote_pk := 2 |}.
Definition index : Dispatch.Publisher := {| Dispatch.publisher_pk := 1 |}.
Definition shelf : Dispatch.Repository := {| Dispatch.repository_pk := 7 |}.

Definition shelf_v1 : Dispatch.RepositoryVersion :=
  {| Dispatch.version_pk := 70; Dispatch.repository := shelf; Dispatch.number := 1 |}.
Definition shelf_v2 : Dispatch.RepositoryVersion :=
  {| Dispatch.version_pk := 71; Dispatch.repository := shelf; Dispatch.number := 2 |}.

Definition idle : Dispatch.World :=
  {| Dispatch.remotes := [pypi];
     Dispatch.publishers := [index];
     Dispatch.versions := [shelf_v1; shelf_v2];
     Dispatch.queue := [];
     Dispatch.events := [] |}.

(** A sync serializer that accepts what it is given. *)
Definition lenient : Dispatch.Platform :=
  {| Dispatch.RepositorySyncURLSerializer := fun data => inr data |}.

Definition sync_shelf : Dispatch.SyncData :=
  {| Dispatch.sync_repository := Some shelf; Dispatch.sync_mirror := Some false |}.

Definition publish_shelf : Dispatch.PublishData :=
  {| Dispatch.publish_repository_version := None;
     Dispatch.publish_repository := Some shelf |}.

Definition publish_both : Dispatch.PublishData :=
  {| Dispatch.publish_repository_version := Some shelf_v1;
     Dispatch.publish_repository := Some shelf |}.

(** The extension table with its items in the opposite order. *)
Definition reversed_table : list (string * string) := rev DIST_EXTENSIONS.

Definition upload_to_absolute_path : gmap string string :=
  {[ "artifact" := "/pulp/api/v3/artifacts/1/";
     "filename" := "/srv/shelf-reader-0.1.tar.gz" ]}.

(** The copy cannot be made. *)
Definition full_disk : Content.Collaborators :=
  {| Content.get_resource := fun _ => inr stored_artifact;
     Content.copy2 :=
       fun _ _ => Some (OtherException "OSError" "No space left on device");
     Content.pkginfo_read := fun _ _ => inr shelf_reader;
     Content.parse_project_metadata := fun m => Content.md_attrs m;
     Content.schema_errors := fun _ => None;
     Content.to_representation := fun u => inr u |}.

(** The resolver fails on a key of its own. *)
Definition resolver_key_error : Content.Collaborators :=
  {| Content.get_resource := fun _ => inl (KeyError "pk");
     Content.copy2 := fun _ _ => None;
     Content.pkginfo_read := fun _ _ => inr shelf_reader;
     Content.parse_project_metadata := fun m => Content.md_attrs m;
     Content.schema_errors := fun _ => None;
     Content.to_representation := fun u => inr u |}.

(** A reader whose object arrives with a package type of its own. *)
Definition labelled_wheel : Content.Metadata :=
  {| Content.md_version := VStr "0.1";
     Content.md_classifiers := ["Programming Language :: Python :: 3"];
     Content.md_packagetype := VStr "bdist_wheel";
     Content.md_attrs := {["name" := VStr "shelf-reader"]} |}.

Definition labelling : Content.Collaborators :=
  {| Content.get_resource := fun _ => inr stored_artifact;
     Content.copy2 := fun _ _ => None;
     Content.pkginfo_read := fun _ _ => inr labelled_wheel;
     Content.parse_project_metadata := fun m => Content.md_attrs m;
     Content.schema_errors := fun _ => None;
     Content.to_representation := fun u => inr u |}.

Definition upload_of_zip : gmap string string :=
  {[ "artifact" := "/pulp/api/v3/artifacts/1/";
     "filename" := "shelf-reader-0.1.zip" ]}.

Definition upload_of_egg : gmap string string :=
  {[ "artifact" := "/pulp/api/v3/artifacts/1/";
     "filename" := "shelf-reader-0.1.egg" ]}.

(** A platform whose only repository has no version yet. *)
Definition bare : Dispatch.World :=
  {| Dispatch.remotes := [pypi];
     Dispatch.publishers := [index];
     Dispatch.versions := [];
     Dispatch.queue := [];
     Dispatch.events := [] |}.

Definition publish_shelf_v1 : Dispatch.PublishData :=
  {| Dispatch.publish_repository_version := Some shelf_v1;
     Dispatch.publish_repository := None |}.

End Samples.

(** ** Notions used to state what the handlers keep *)

(** A world after further events, with the same rows and directories. *)
Definition after (w : Content.World) (evs : list Content.Event) : Content.World :=
  {| Content.content := Content.content w;
     Content.tmpdirs := Content.tmpdirs w;
     Content.events := Content.events w ++ evs |}.

(** A stored unit agrees with the extension table when its package type is
    the one the table gives for its file name. *)
Definition typed_by_extension (u : Content.PackageContent) : bool :=
  match Format.detect (Content.pc_filename u) with
  | Some (_, packagetype) => String.eqb packagetype (Content.pc_packagetype u)
  | None => false
  end.

(** The primary keys a task works with name resources of a list. *)
Definition names_reserved (t : Dispatch.Task) (rs : list Dispatch.Resource) : bool :=
  match t with
  | Dispatch.TaskSync remote_pk repository_pk _ =>
      existsb (Dispatch.resource_eqb
                 (Dispatch.RemoteResource {| Dispatch.remote_pk := remote_pk |})) rs
      && existsb (Dispatch.resource_eqb
                    (Dispatch.RepositoryResource
                       {| Dispatch.repository_pk := repository_pk |})) rs
  | Dispatch.TaskPublish publisher_pk _ =>
      existsb (Dispatch.resource_eqb
                 (Dispatch.PublisherResource
                    {| Dispatch.publisher_pk := publisher_pk |})) rs
  end.

(** ** Facts about the suffix test *)

Section EndswithFacts.
Import Format.

Lemma endswith_refl s : endswith s s = true.
Proof. destruct s; cbn [endswith]; rewrite String.eqb_refl; reflexivity. Qed.

Lemma endswith_cons c s ext : endswith s ext = true -> endswith (String c s) ext = true.
Proof.
  intros H. cbn [endswith].
  destruct (String.eqb (String c s) ext); [reflexivity | exact H].
Qed.

Lemma endswith_app p ext : endswith (p +:+ ext) ext = true.
Proof.
  induction p as [| c p IH].
  - apply endswith_refl.
  - change (String c p +:+ ext) with (String c (p +:+ ext)).
    apply endswith_cons, IH.
Qed.

Lemma endswith_inv s ext : endswith s ext = true -> exists p, s = p +:+ ext.
Proof.
  induction s as [| c s IH]; cbn [endswith].
  - destruct (String.eqb "" ext) eqn:E; [| discriminate].
    apply String.eqb_eq in E. intros _. exists "". exact E.
  - destruct (String.eqb (String c s) ext) eqn:E.
    + apply String.eqb_eq in E. intros _. exists "". exact E.
    + intros H. destruct (IH H) as [p ->]. exists (String c p). reflexivity.
Qed.

(** Two suffixes of one string are comparable: one is a suffix of the other. *)
Lemma endswith_comparable s a b :
  endswith s a = true -> endswith s b = true ->
  endswith a b = true \/ endswith b a = true.
Proof.
  induction s as [| c s IH]; cbn [endswith].
  - destruct (String.eqb "" a) eqn:Ea; [| discriminate].
    destruct (String.eqb "" b) eqn:Eb; [| discriminate].
    apply String.eqb_eq in Ea, Eb. subst. intros _ _. left. reflexivity.
  - destruct (String.eqb (String c s) a) eqn:Ea.
    + apply String.eqb_eq in Ea. subst a. intros _ Hb. left.
      cbn [endswith]. exact Hb.
    + destruct (String.eqb (String c s) b) eqn:Eb.
      * apply String.eqb_eq in Eb. subst b. intros Ha _. right.
        cbn [endswith]. rewrite Ea. exact Ha.
      * apply IH.
Qed.

(** A file name that ends in [a] does not end in an extension [b] that is
    incomparable with [a]. *)
Lemma endswith_exclusive s a b :
  endswith a b = false -> endswith b a = false ->
  endswith s a = true -> endswith s b = false.
Proof.
  intros Hab Hba Ha. destruct (endswith s b) eqn:Hb; [| reflexivity].
  destruct (endswith_comparable s a b Ha Hb) as [H | H]; congruence.
Qed.

End EndswithFacts.

(** ** Format detection *)

Section Detection.
Import Format Content.
Context `{Collaborators}.

(** The loop of [create] does what [first_match] says: it extracts with the
    package type of the first matching item, or raises the error of the
    [else] clause. *)
Lemma read_metadata_first_match items artifact filename :
  read_metadata items artifact filename =
  match first_match items filename with
  | Some (_, packagetype) => extract artifact filename packagetype
  | None => raise (ValidationError (MessageDetail (unsupported_message filename)))
  end.
Proof.
  induction items as [| [ext packagetype] rest IH]; cbn [read_metadata first_match].
  - reflexivity.
  - destruct (endswith filename ext); [reflexivity | exact IH].
Qed.

Lemma first_match_None items filename :
  first_match items filename = None <->
  Forall (fun item => endswith filename (fst item) = false) items.
Proof.
  induction items as [| [ext packagetype] rest IH]; cbn [first_match].
  - split; [constructor | reflexivity].
  - destruct (endswith filename ext) eqn:E.
    + split; [discriminate |]. intros Hall. inversion Hall; subst.
      cbn in *. congruence.
    + rewrite IH. split.
      * intros Hall. constructor; [exact E | exact Hall].
      * intros Hall. inversion Hall; assumption.
Qed.

(** No extension of the table is a suffix of another one, so a file name
    matches at most one item and the order of the items does not matter. *)
Lemma DIST_EXTENSIONS_incomparable :
  forall a b, In a (map fst DIST_EXTENSIONS) -> In b (map fst DIST_EXTENSIONS) ->
    a <> b -> endswith a b = false.
Proof.
  intros a b Ha Hb Hne. cbn in Ha, Hb.
  repeat (destruct Ha as [<- | Ha]; [| try contradiction]);
  repeat (destruct Hb as [<- | Hb]; [| try contradiction]);
  first [ reflexivity | contradiction Hne; reflexivity ].
Qed.

(** The item the loop stops at is the only item whose extension matches. *)
Lemma detect_unique filename ext packagetype :
  In (ext, packagetype) DIST_EXTENSIONS ->
  endswith filename ext = true ->
  detect filename = Some (ext, packagetype).
Proof.
  intros Hin Hend.
  assert (Hother : forall e, In e (map fst DIST_EXTENSIONS) -> e <> ext ->
                             endswith filename e = false).
  { intros e He Hne. apply (endswith_exclusive filename ext e); [| | exact Hend].
    - apply DIST_EXTENSIONS_incomparable; [| exact He | congruence].
      apply in_map_iff. exists (ext, packagetype). split; [reflexivity | exact Hin].
    - apply DIST_EXTENSIONS_incomparable; [exact He | | exact Hne].
      apply in_map_iff. exists (ext, packagetype). split; [reflexivity | exact Hin]. }
  unfold detect. cbn in Hin, Hother.
  repeat (destruct Hin as [Heq | Hin]; [| try contradiction]);
    injection Heq as <- <-; cbn [first_match DIST_EXTENSIONS];
    repeat (first [ rewrite Hend; reflexivity
                  | rewrite Hother; [| auto 10 | discriminate] ]).
Qed.

Lemma first_match_Some items filename ext packagetype :
  first_match items filename = Some (ext, packagetype) ->
  In (ext, packagetype) items /\ endswith filename ext = true.
Proof.
  induction items as [| [e p] rest IH]; cbn [first_match]; [discriminate |].
  destruct (endswith filename e) eqn:E.
  - intros Heq. inversion Heq; subst. split; [left; reflexivity | exact E].
  - intros Hrest. destruct (IH Hrest) as [Hin Hend].
    split; [right; exact Hin | exact Hend].
Qed.

Lemma first_match_only items filename ext packagetype :
  In (ext, packagetype) items ->
  endswith filename ext = true ->
  (forall item, In item items -> endswith filename (fst item) = true ->
                item = (ext, packagetype)) ->
  first_match items filename = Some (ext, packagetype).
Proof.
  induction items as [| [e p] rest IH]; cbn [first_match]; [contradiction |].
  intros Hin Hend Honly. destruct (endswith filename e) eqn:E.
  - rewrite (Honly (e, p) (or_introl eq_refl) E). reflexivity.
  - destruct Hin as [Heq | Hin].
    + inversion Heq; subst. congruence.
    + apply IH; [exact Hin | exact Hend |].
      intros item Hitem. apply Honly. right. exact Hitem.
Qed.

(** The loop finds the same item in whatever order the dict yields its
    items. *)
Lemma detect_any_order items filename :
  Permutation items DIST_EXTENSIONS ->
  first_match items filename = detect filename.
Proof.
  intros Hperm. destruct (detect filename) as [[ext packagetype] |] eqn:Hdet.
  - destruct (first_match_Some _ _ _ _ Hdet) as [Hin Hend].
    apply first_match_only; [| exact Hend |].
    + apply (Permutation_in _ (Permutation_sym Hperm)), Hin.
    + intros [e p] Hitem He. cbn [fst] in He.
      pose proof (detect_unique filename e p
                    (Permutation_in _ Hperm Hitem) He) as Hdet'.
      rewrite Hdet in Hdet'. inversion Hdet'. reflexivity.
  - apply first_match_None. apply first_match_None in Hdet.
    apply (Permutation_Forall (Permutation_sym Hperm)), Hdet.
Qed.

(** C1. A file name that ends in [.tar.gz] or in [.tar.bz2] is detected
    through that very item of the table, with package type [sdist]: the
    loop of [create] neither stops at another item nor reaches its [else]
    clause, and it extracts with the source-distribution reader. *)
Theorem compound_suffix_detected (filename ext : string) (artifact : Artifact) :
  ext = ".tar.gz" \/ ext = ".tar.bz2" ->
  endswith filename ext = true ->
  detect filename = Some (ext, "sdist")
  /\ read_metadata DIST_EXTENSIONS artifact filename = extract artifact filename "sdist"
  /\ DIST_TYPES "sdist" = Some SDist.
Proof.
  intros Hext Hend.
  assert (Hd : detect filename = Some (ext, "sdist")).
  { apply detect_unique; [| exact Hend].
    destruct Hext as [-> | ->]; cbn; auto 10. }
  split; [exact Hd |]. split; [| reflexivity].
  rewrite read_metadata_first_match. unfold detect in Hd. rewrite Hd. reflexivity.
Qed.

End Detection.

(** ** The content view set *)

Lemma fresh_removed (dirs : gset nat) :
  ({[fresh dirs]} ∪ dirs) ∖ {[fresh dirs]} = dirs.
Proof.
  pose proof (is_fresh dirs) as Hfresh. apply set_eq. intros x.
  rewrite elem_of_difference, elem_of_union, !elem_of_singleton.
  split.
  - intros [[-> | Hx] Hne]; [contradiction | exact Hx].
  - intros Hx. split; [right; exact Hx | intros ->; contradiction].
Qed.

Section ContentFacts.
Import Format Content.
Context `{Collaborators}.

Lemma set_content_same w : set_content w (content w) = w.
Proof. destruct w; reflexivity. Qed.

(** [@transaction.atomic] undoes the writes of any body that raises. *)
Lemma atomic_rollback {A} (body : M A) w e w' :
  atomic body w = (inl e, w') -> content w' = content w.
Proof.
  unfold atomic. destruct (body w) as [[e' | a] w1]; intros Heq;
    inversion Heq; subst; reflexivity.
Qed.

Lemma atomic_frame {A} (body : M A) w :
  tmpdirs (snd (atomic body w)) = tmpdirs (snd (body w))
  /\ events (snd (atomic body w)) = events (snd (body w)).
Proof.
  unfold atomic. destruct (body w) as [[e | a] w1]; split; reflexivity.
Qed.

(** What the body of the loop leaves behind, whatever its outcome: the
    content table and the set of temporary directories as they were, and
    the events of one directory created, used and removed. *)
Lemma extract_frame artifact filename packagetype w :
  let td := fresh (tmpdirs w) in
  let w' := snd (extract artifact filename packagetype w) in
  content w' = content w
  /\ tmpdirs w' = tmpdirs w
  /\ exists mid,
       events w' = events w ++ [EvMkdtemp td] ++ mid ++ [EvCleanup td]
       /\ forallb is_extraction mid = true.
Proof.
  cbv zeta.
  unfold extract, with_TemporaryDirectory, shutil_copy2, read, bind, emit, lift, ret, raise.
  cbn [log set_tmpdirs content tmpdirs events].
  destruct (copy2 _ _) as [e |]; cbn [snd log set_tmpdirs content tmpdirs events].
  - split; [reflexivity |]. split; [apply fresh_removed |].
    exists [EvCopy (artifact_path artifact)
                   (os_path_join (td_path (fresh (tmpdirs w))) filename)].
    split; [| reflexivity]. rewrite <- !app_assoc. reflexivity.
  - destruct (DIST_TYPES packagetype) as [cls |];
      cbn [snd log set_tmpdirs content tmpdirs events].
    + destruct (pkginfo_read cls _) as [e | m];
        cbn [snd log set_tmpdirs content tmpdirs events];
        (split; [reflexivity |]; split; [apply fresh_removed |];
         eexists [EvCopy _ _; EvRead cls _];
         split; [rewrite <- !app_assoc; reflexivity | reflexivity]).
    + split; [reflexivity |]. split; [apply fresh_removed |].
      eexists [EvCopy _ _].
      split; [rewrite <- !app_assoc; reflexivity | reflexivity].
Qed.

(** When the body of the loop returns a metadata object, the copy was made
    and the reader of the package type returned the object, which then got
    the package type as its attribute. *)
Lemma extract_success artifact filename packagetype w m w' :
  extract artifact filename packagetype w = (inr m, w') ->
  exists cls m0,
    let temp_path := os_path_join (td_path (fresh (tmpdirs w))) filename in
    DIST_TYPES packagetype = Some cls
    /\ copy2 (artifact_path artifact) temp_path = None
    /\ pkginfo_read cls temp_path = inr m0
    /\ m = set_packagetype m0 packagetype.
Proof.
  unfold extract, with_TemporaryDirectory, shutil_copy2, read, bind, emit, lift, ret, raise.
  cbn [log set_tmpdirs content tmpdirs events].
  destruct (copy2 _ _) as [e |] eqn:Hcopy; [discriminate |].
  destruct (DIST_TYPES packagetype) as [cls |] eqn:Hcls; [| discriminate].
  destruct (pkginfo_read cls _) as [e | m0] eqn:Hread; [discriminate |].
  intros Heq. inversion Heq; subst. exists cls, m0. cbv zeta. auto.
Qed.

(** The second half of [create] touches only the content table. *)
Lemma register_frame m filename request_data w :
  tmpdirs (snd (register m filename request_data w)) = tmpdirs w
  /\ events (snd (register m filename request_data w)) = events w.
Proof.
  unfold register, getitem, perform_create, bind, lift, ret, raise.
  destruct (request_data !! "artifact") as [uri |]; [| auto].
  destruct (is_valid _) as [e | u]; [auto |].
  destruct (existsb _ _); [auto |].
  destruct (to_representation u); auto.
Qed.

(** When the second half of [create] returns, the data passed validation,
    no unit with the same artifact and file name was stored, and exactly
    the validated unit was appended to the content table. *)
Lemma register_success m filename request_data w resp w' :
  register m filename request_data w = (inr resp, w') ->
  exists uri u,
    request_data !! "artifact" = Some uri
    /\ is_valid (build_data m filename uri) = inr u
    /\ existsb (same_submission u) (content w) = false
    /\ to_representation u = inr (body resp)
    /\ status resp = HTTP_201_CREATED
    /\ w' = set_content w (content w ++ [u]).
Proof.
  unfold register, getitem, perform_create, bind, lift, ret, raise.
  destruct (request_data !! "artifact") as [uri |]; [| discriminate].
  destruct (is_valid _) as [e | u] eqn:Hvalid; [discriminate |].
  destruct (existsb _ _) eqn:Hdup; [discriminate |].
  destruct (to_representation u) as [e | shown] eqn:Hshow; [discriminate |].
  intros Heq. inversion Heq; subst. exists uri, u. cbn. auto 10.
Qed.

(** A request with a resolvable artifact and a file name reaches the loop. *)
Lemma create_body_reaches request_data w uri artifact filename :
  request_data !! "artifact" = Some uri ->
  get_resource uri = inr artifact ->
  request_data !! "filename" = Some filename ->
  create_body request_data w =
  bind (read_metadata DIST_EXTENSIONS artifact filename)
       (fun m => register m filename request_data) w.
Proof.
  intros Huri Hres Hname.
  unfold create_body, try_except_KeyError, getitem, bind at 1 2 3 4, lift, ret.
  rewrite Huri, Hres, Hname. reflexivity.
Qed.

(** A request for which [create_body] returns went through every stage. *)
Lemma create_body_success request_data w resp w' :
  create_body request_data w = (inr resp, w') ->
  exists uri artifact filename ext packagetype m w1,
    request_data !! "artifact" = Some uri
    /\ get_resource uri = inr artifact
    /\ request_data !! "filename" = Some filename
    /\ detect filename = Some (ext, packagetype)
    /\ extract artifact filename packagetype w = (inr m, w1)
    /\ register m filename request_data w1 = (inr resp, w').
Proof.
  intros Hrun.
  destruct (request_data !! "artifact") as [uri |] eqn:Huri.
  2:{ revert Hrun. unfold create_body, try_except_KeyError, getitem, bind, raise.
      rewrite Huri. discriminate. }
  destruct (get_resource uri) as [e | artifact] eqn:Hres.
  { revert Hrun. unfold create_body, try_except_KeyError, getitem, bind, lift, ret, raise.
    rewrite Huri, Hres. destruct e; discriminate. }
  destruct (request_data !! "filename") as [filename |] eqn:Hname.
  2:{ revert Hrun. unfold create_body, try_except_KeyError, getitem, bind, lift, ret, raise.
      rewrite Huri, Hres, Hname. discriminate. }
  rewrite (create_body_reaches _ _ _ _ _ Huri Hres Hname) in Hrun.
  unfold bind in Hrun. rewrite read_metadata_first_match in Hrun.
  fold (detect filename) in Hrun.
  destruct (detect filename) as [[ext packagetype] |] eqn:Hdet.
  - destruct (extract artifact filename packagetype w) as [[e | m] w1] eqn:Hex;
      [discriminate |].
    exists uri, artifact, filename, ext, packagetype, m, w1. auto 10.
  - discriminate.
Qed.

(** C3. [create] is one transaction: when it raises, at whatever stage,
    the content table is what it was before the request; when it returns,
    the table has gained exactly one unit, the one that passed validation. *)
Theorem create_is_atomic (request_data : gmap string string) (w : World) :
  match create request_data w with
  | (inl _, w') => content w' = content w
  | (inr resp, w') =>
      exists u, content w' = content w ++ [u]
                /\ to_representation u = inr (body resp)
  end.
Proof.
  destruct (create request_data w) as [[e | resp] w'] eqn:Hrun.
  - exact (atomic_rollback _ _ _ _ Hrun).
  - unfold create, atomic in Hrun.
    destruct (create_body request_data w) as [[e | resp'] w2] eqn:Hbody;
      [discriminate |].
    inversion Hrun; subst resp' w2; clear Hrun.
    destruct (create_body_success _ _ _ _ Hbody)
      as (uri & artifact & filename & ext & packagetype & m & w1
          & _ & _ & _ & _ & Hex & Hreg).
    destruct (register_success _ _ _ _ _ _ Hreg)
      as (uri' & u & _ & _ & _ & Hshow & _ & ->).
    exists u. split; [| exact Hshow].
    pose proof (extract_frame artifact filename packagetype w) as Hframe.
    cbv zeta in Hframe. rewrite Hex in Hframe. destruct Hframe as [Hcontent _].
    cbn in Hcontent. cbn. rewrite Hcontent. reflexivity.
Qed.


(** C5. A file name that ends with none of the extensions of the table
    makes [create] raise the validation error of the [else] clause and
    leaves the world as it was, so no unit is created. The message holds the
    file name between its two fixed parts and lists, between parentheses,
    the six extensions of the table, each once. *)
Theorem unsupported_extension_rejected
    (request_data : gmap string string) (w : World)
    (uri filename : string) (artifact : Artifact) :
  request_data !! "artifact" = Some uri ->
  get_resource uri = inr artifact ->
  request_data !! "filename" = Some filename ->
  Forall (fun item => endswith filename (fst item) = false) DIST_EXTENSIONS ->
  create request_data w =
    (inl (ValidationError (MessageDetail (unsupported_message filename))), w)
  /\ unsupported_message filename =
       "Extension on " +:+ filename +:+ " is not a valid python extension ("
       +:+ join ", " listed_extensions +:+ ")"
  /\ Permutation listed_extensions (map fst DIST_EXTENSIONS).
Proof.
  intros Huri Hres Hname Hnone. split; [| split].
  - unfold create, atomic.
    rewrite (create_body_reaches _ _ _ _ _ Huri Hres Hname).
    unfold bind. rewrite read_metadata_first_match.
    apply first_match_None in Hnone. rewrite Hnone.
    unfold raise. rewrite set_content_same. reflexivity.
  - reflexivity.
  - unfold listed_extensions, DIST_EXTENSIONS. cbn [map fst].
    do 3 apply perm_skip. apply perm_swap.
Qed.

(** The serializer data takes [packagetype] and [version] from the
    attributes of the metadata object it is given: whatever
    [parse_project_metadata] put under these keys is replaced. Where the
    [packagetype] attribute of that object comes from is another matter,
    settled by the body of the loop. *)
Lemma packagetype_and_version_carried
    (metadata : Metadata) (filename artifact_uri : string) :
  build_data metadata filename artifact_uri !! "packagetype"
    = Some (md_packagetype metadata)
  /\ build_data metadata filename artifact_uri !! "version"
    = Some (md_version metadata).
Proof.
  unfold build_data. split.
  - rewrite !lookup_insert_ne by discriminate. apply lookup_insert_eq.
  - rewrite !lookup_insert_ne by discriminate. apply lookup_insert_eq.
Qed.

(** C8. A request that reaches the loop with a file name the table knows
    gets a temporary directory of its own, one that did not exist before,
    and whatever happens next (the copy fails, the reader raises, the data
    fail validation, the unit is a duplicate, or the unit is saved) the
    directory is gone when [create] is left: the set of temporary
    directories is what it was, and the events are the creation of the
    directory, the copy and the read, and its removal. *)
Theorem temporary_directory_released
    (request_data : gmap string string) (w : World)
    (uri filename ext packagetype : string) (artifact : Artifact) :
  request_data !! "artifact" = Some uri ->
  get_resource uri = inr artifact ->
  request_data !! "filename" = Some filename ->
  detect filename = Some (ext, packagetype) ->
  let td := fresh (tmpdirs w) in
  let w' := snd (create request_data w) in
  (td ∉ tmpdirs w)
  /\ (td ∉ tmpdirs w')
  /\ tmpdirs w' = tmpdirs w
  /\ exists mid,
       events w' = events w ++ [EvMkdtemp td] ++ mid ++ [EvCleanup td]
       /\ forallb is_extraction mid = true.
Proof.
  intros Huri Hres Hname Hdet. cbv zeta.
  pose proof (is_fresh (tmpdirs w)) as Hfresh.
  destruct (atomic_frame (create_body request_data) w) as [Htmp Hev].
  unfold create. rewrite Htmp, Hev.
  rewrite (create_body_reaches _ _ _ _ _ Huri Hres Hname).
  unfold bind. rewrite read_metadata_first_match.
  unfold detect in Hdet. rewrite Hdet.
  pose proof (extract_frame artifact filename packagetype w) as Hframe.
  cbv zeta in Hframe.
  destruct (extract artifact filename packagetype w) as [[e | m] w1].
  - cbn [snd] in *. destruct Hframe as (_ & Hdirs & Hmid).
    rewrite Hdirs. auto.
  - cbn [snd] in Hframe. destruct Hframe as (_ & Hdirs & Hmid).
    destruct (register_frame m filename request_data w1) as [Hdirs' Hev'].
    rewrite Hdirs', Hev', Hdirs. auto.
Qed.

Lemma required_field_inr data field v :
  required_field data field = inr v -> data !! field = Some (VStr v).
Proof.
  unfold required_field. destruct (data !! field) as [[| s | l | d] |];
    intros Heq; inversion Heq; reflexivity.
Qed.

(** The classifier records of a list of names give back the names, in the
    same order and with the same repetitions. *)
Lemma classifier_names_records (cs : list string) :
  classifier_names (map (fun classifier => VDict [("name", VStr classifier)]) cs)
  = Some cs.
Proof.
  induction cs as [| c cs IH]; [reflexivity |].
  cbn [map classifier_names]. rewrite String.eqb_refl, IH. reflexivity.
Qed.

(** What a unit that passed validation holds of the data built for it. *)
Lemma is_valid_build_data m filename uri u :
  is_valid (build_data m filename uri) = inr u ->
  parse_project_metadata m !! "name" = Some (VStr (pc_name u))
  /\ md_version m = VStr (pc_version u)
  /\ md_packagetype m = VStr (pc_packagetype u)
  /\ pc_filename u = filename
  /\ pc_classifiers u = md_classifiers m
  /\ pc_artifact u = uri.
Proof.
  unfold is_valid, and_then.
  destruct (required_field _ "name") as [e | name] eqn:Hname; [discriminate |].
  destruct (required_field _ "version") as [e | version] eqn:Hversion; [discriminate |].
  destruct (required_field _ "packagetype") as [e | packagetype] eqn:Htype; [discriminate |].
  destruct (required_field _ "filename") as [e | filename'] eqn:Hfile; [discriminate |].
  destruct (required_field _ "artifact") as [e | artifact] eqn:Hart; [discriminate |].
  destruct (classifiers_field _) as [e | classifiers] eqn:Hcls; [discriminate |].
  destruct (schema_errors _); [discriminate |].
  intros Heq. inversion Heq; subst u; clear Heq. cbn.
  apply required_field_inr in Hname, Hversion, Htype, Hfile, Hart.
  unfold build_data in *.
  rewrite !lookup_insert_ne in Hname by discriminate.
  rewrite !lookup_insert_ne, lookup_insert_eq in Hversion by discriminate.
  rewrite !lookup_insert_ne, lookup_insert_eq in Htype by discriminate.
  rewrite !lookup_insert_ne, lookup_insert_eq in Hfile by discriminate.
  rewrite lookup_insert_eq in Hart.
  unfold classifiers_field in Hcls.
  rewrite !lookup_insert_ne, lookup_insert_eq in Hcls by discriminate.
  rewrite classifier_names_records in Hcls.
  inversion Hversion. inversion Htype. inversion Hfile. inversion Hart.
  inversion Hcls. auto 10.
Qed.

(** A unit appended to a table without a unit of the same artifact and file
    name is the one a read by that pair finds. *)
Lemma read_back_appended w u :
  existsb (same_submission u) (content w) = false ->
  read_back (set_content w (content w ++ [u])) (pc_artifact u) (pc_filename u)
  = Some u.
Proof.
  unfold read_back. cbn [content set_content].
  induction (content w) as [| v rest IH]; cbn [existsb app find].
  - intros _. rewrite !String.eqb_refl. reflexivity.
  - intros Hnone. apply orb_false_iff in Hnone as [Hv Hrest].
    unfold same_submission in Hv.
    rewrite (String.eqb_sym (pc_artifact v)), (String.eqb_sym (pc_filename v)), Hv.
    apply IH, Hrest.
Qed.

(** C9. When [create] returns, the unit read back from the content table by
    the artifact reference and the file name of the request holds what was
    registered: the name that [parse_project_metadata] gave, the version and
    the classifiers of the object the reader returned, the classifiers in
    the reader's order and with its repetitions, the package type of the
    extension, and the file name of the request; the response shows this
    unit. *)
Theorem created_unit_reads_back
    (request_data : gmap string string) (w w' : World) (resp : Response) :
  create request_data w = (inr resp, w') ->
  exists uri filename artifact ext packagetype cls m0 u,
    request_data !! "artifact" = Some uri
    /\ request_data !! "filename" = Some filename
    /\ get_resource uri = inr artifact
    /\ detect filename = Some (ext, packagetype)
    /\ DIST_TYPES packagetype = Some cls
    /\ pkginfo_read cls (os_path_join (td_path (fresh (tmpdirs w))) filename)
       = inr m0
    /\ read_back w' uri filename = Some u
    /\ parse_project_metadata (set_packagetype m0 packagetype) !! "name"
       = Some (VStr (pc_name u))
    /\ md_version m0 = VStr (pc_version u)
    /\ pc_packagetype u = packagetype
    /\ pc_filename u = filename
    /\ pc_classifiers u = md_classifiers m0
    /\ to_representation u = inr (body resp).
Proof.
  intros Hrun. unfold create, atomic in Hrun.
  destruct (create_body request_data w) as [[e | resp'] w2] eqn:Hbody;
    [discriminate |].
  inversion Hrun; subst resp' w2; clear Hrun.
  destruct (create_body_success _ _ _ _ Hbody)
    as (uri & artifact & filename & ext & packagetype & m & w1
        & Huri & Hres & Hname & Hdet & Hex & Hreg).
  destruct (extract_success _ _ _ _ _ _ Hex) as (cls & m0 & Hcls & _ & Hread & ->).
  destruct (register_success _ _ _ _ _ _ Hreg)
    as (uri' & u & Huri' & Hvalid & Hdup & Hshow & _ & ->).
  rewrite Huri in Huri'. inversion Huri'; subst uri'.
  destruct (is_valid_build_data _ _ _ _ Hvalid)
    as (Hn & Hv & Ht & Hf & Hc & Ha).
  cbn [md_version md_packagetype md_classifiers set_packagetype] in Hv, Ht, Hc.
  injection Ht as Hpt. symmetry in Hpt.
  assert (Hback : read_back (set_content w1 (content w1 ++ [u])) uri filename
                  = Some u).
  { rewrite <- Ha, <- Hf. apply read_back_appended, Hdup. }
  exists uri, filename, artifact, ext, packagetype, cls, m0, u.
  repeat (split; [assumption |]). assumption.
Qed.

End ContentFacts.

(** ** The dispatching view sets *)

Section DispatchFacts.
Import Dispatch.

Lemma repository_eqb_eq a b : repository_eqb a b = true -> a = b.
Proof.
  destruct a as [x], b as [y]. unfold repository_eqb. cbn.
  intros Heq. apply Nat.eqb_eq in Heq. congruence.
Qed.

(** The latest version of a repository is a version of that repository. *)
Lemma latest_of_repository ledger r v :
  latest_of ledger r = Some v -> repository v = r.
Proof.
  revert v. induction ledger as [| v0 rest IH]; cbn [latest_of]; [discriminate |].
  intros v. destruct (repository_eqb (repository v0) r) eqn:Heq.
  - apply repository_eqb_eq in Heq.
    destruct (latest_of rest r) as [v' |].
    + intros Hv. inversion Hv; subst v. unfold later.
      destruct (Nat.ltb (number v0) (number v')); [apply IH; reflexivity | exact Heq].
    + intros Hv. inversion Hv; subst v. exact Heq.
  - apply IH.
Qed.

(** The version a request stands for, when it names only a repository, is a
    version of that repository. *)
Lemma resolved_repository w r v :
  resolved w {| publish_repository_version := None; publish_repository := Some r |}
    = Some v ->
  repository v = r.
Proof. unfold resolved. cbn. apply latest_of_repository. Qed.

Lemma get_publisher_found w pk publisher :
  find (fun p => Nat.eqb (publisher_pk p) pk) (publishers w) = Some publisher ->
  get_publisher pk w = (inr publisher, w).
Proof. intros Hfind. unfold get_publisher. rewrite Hfind. reflexivity. Qed.

(** A publish request that is dispatched was accepted by the serializer,
    and the queue gained one job: the publish task of the publisher and of
    the version the request stands for, reserving the repository of that
    version and the publisher. *)
Lemma publish_success pk data w handle w' :
  publish pk data w = (inr handle, w') ->
  exists publisher v,
    find (fun p => Nat.eqb (publisher_pk p) pk) (publishers w) = Some publisher
    /\ RepositoryPublishURLSerializer data = inr data
    /\ resolved w data = Some v
    /\ queue w' = queue w ++
         [{| job_task := TaskPublish (publisher_pk publisher) (version_pk v);
             job_resources := [RepositoryResource (repository v);
                               PublisherResource publisher] |}].
Proof.
  unfold publish, get_publisher, bind, lift, ret, raise.
  destruct (find _ (publishers w)) as [publisher |] eqn:Hfind; [| discriminate].
  unfold RepositoryPublishURLSerializer, resolved, latest, enqueue_with_reservation.
  destruct data as [[v |] [r |]]; cbn; try discriminate.
  - intros Heq. inversion Heq; subst. exists publisher, v. auto.
  - destruct (latest_of (versions w) r) as [v |] eqn:Hlatest; [| discriminate].
    intros Heq. inversion Heq; subst. exists publisher, v. auto.
Qed.

Section WithPlatform.
Context `{Platform}.

(** A sync request that is dispatched named a repository, and the queue
    gained one job: the sync task of the remote and the repository,
    reserving the repository and the remote. *)
Lemma sync_success pk data w handle w' :
  sync pk data w = (inr handle, w') ->
  exists remote validated r,
    find (fun x => Nat.eqb (remote_pk x) pk) (remotes w) = Some remote
    /\ RepositorySyncURLSerializer data = inr validated
    /\ sync_repository validated = Some r
    /\ queue w' = queue w ++
         [{| job_task := TaskSync (remote_pk remote) (repository_pk r)
                                  (sync_mirror validated);
             job_resources := [RepositoryResource r; RemoteResource remote] |}].
Proof.
  unfold sync, get_remote, bind, lift, ret, raise.
  destruct (find _ (remotes w)) as [remote |] eqn:Hfind; [| discriminate].
  destruct (RepositorySyncURLSerializer data) as [e | validated] eqn:Hvalid;
    [discriminate |].
  destruct (sync_repository validated) as [r |] eqn:Hrepo; [| discriminate].
  unfold enqueue_with_reservation. intros Heq. inversion Heq; subst.
  exists remote, validated, r. auto.
Qed.

End WithPlatform.

End DispatchFacts.

Section DispatchClaims.
Import Dispatch.

(** C2, as the code has it. For a publish request that names only a
    repository, the handler reads the latest version of the repository
    itself, from the ledger as it is when the request is handled, and only
    then enqueues the job: the read is the event before the enqueue, no
    reservation is declared when it happens, and the job gets the key of the
    version that was read. *)
Theorem latest_resolved_before_enqueue
    (w : World) (pk : nat) (publisher : Publisher)
    (r : Repository) (v : RepositoryVersion) :
  find (fun p => Nat.eqb (publisher_pk p) pk) (publishers w) = Some publisher ->
  latest_of (versions w) r = Some v ->
  let data := {| publish_repository_version := None;
                 publish_repository := Some r |} in
  let job := {| job_task := TaskPublish (publisher_pk publisher) (version_pk v);
                job_resources := [RepositoryResource (repository v);
                                  PublisherResource publisher] |} in
  fst (publish pk data w) = inr (length (queue w))
  /\ events (snd (publish pk data w)) = events w ++ [EvLatest r; EvEnqueue job]
  /\ queue (snd (publish pk data w)) = queue w ++ [job]
  /\ new_events w (snd (publish pk data w)) = [EvLatest r; EvEnqueue job]
  /\ reads_under_reservation false (new_events w (snd (publish pk data w)))
     = false.
Proof.
  intros Hfind Hlatest. cbv zeta.
  unfold publish, bind, lift, ret, raise. rewrite (get_publisher_found _ _ _ Hfind).
  cbn [RepositoryPublishURLSerializer publish_repository_version
       publish_repository latest].
  rewrite Hlatest. unfold enqueue_with_reservation, new_events.
  cbn [fst snd log push events queue versions].
  rewrite <- !app_assoc. cbn [app]. rewrite drop_app_length.
  repeat split; reflexivity.
Qed.

(** C7. A publish request that supplies both a repository version and a
    repository, or neither, is turned down before anything is enqueued: the
    handler raises and leaves the world, its queue and its events as they
    were, so no job exists and nothing is reserved; when the publisher of
    the URL exists, the error raised is [InvalidRequest]. *)
Theorem publish_rejects_both_or_neither
    (w : World) (pk : nat) (data : PublishData) :
  (publish_repository_version data <> None /\ publish_repository data <> None)
  \/ (publish_repository_version data = None /\ publish_repository data = None) ->
  (exists e, publish pk data w = (inl e, w))
  /\ (forall publisher,
        find (fun p => Nat.eqb (publisher_pk p) pk) (publishers w) = Some publisher ->
        publish pk data w = (inl InvalidRequest, w)).
Proof.
  intros Hshape.
  assert (Hinvalid : RepositoryPublishURLSerializer data = inl InvalidRequest).
  { unfold RepositoryPublishURLSerializer.
    destruct data as [[v |] [r |]]; cbn in *;
      destruct Hshape as [[Hv Hr] | [Hv Hr]]; congruence. }
  unfold publish, get_publisher, bind, lift.
  destruct (find _ (publishers w)) as [publisher |].
  - rewrite Hinvalid. split; [eexists; reflexivity |].
    intros publisher' _. reflexivity.
  - split; [eexists; reflexivity |]. intros publisher' Habs. discriminate.
Qed.

(** C10. A dispatched sync reserves exactly the repository of the request
    and the remote; a dispatched publish reserves exactly the repository of
    the version it stands for and the publisher; when the two repositories
    are the same, the two resource lists overlap. *)
Theorem reservations_of_sync_and_publish
    `{Platform} (w1 w1' w2 w2' : World) (pk1 pk2 h1 h2 : nat)
    (sync_data : SyncData) (publish_data : PublishData) :
  sync pk1 sync_data w1 = (inr h1, w1') ->
  publish pk2 publish_data w2 = (inr h2, w2') ->
  exists remote validated r publisher v sync_job publish_job,
    find (fun x => Nat.eqb (remote_pk x) pk1) (remotes w1) = Some remote
    /\ RepositorySyncURLSerializer sync_data = inr validated
    /\ sync_repository validated = Some r
    /\ queue w1' = queue w1 ++ [sync_job]
    /\ job_resources sync_job = [RepositoryResource r; RemoteResource remote]
    /\ find (fun p => Nat.eqb (publisher_pk p) pk2) (publishers w2) = Some publisher
    /\ resolved w2 publish_data = Some v
    /\ queue w2' = queue w2 ++ [publish_job]
    /\ job_resources publish_job =
         [RepositoryResource (repository v); PublisherResource publisher]
    /\ (forall r',
          publish_repository_version publish_data = None ->
          publish_repository publish_data = Some r' ->
          repository v = r')
    /\ (repository v = r ->
        overlap (job_resources sync_job) (job_resources publish_job) = true).
Proof.
  intros Hsync Hpublish.
  destruct (sync_success _ _ _ _ _ Hsync)
    as (remote & validated & r & Hremote & Hvalid & Hrepo & Hq1).
  destruct (publish_success _ _ _ _ _ Hpublish)
    as (publisher & v & Hpub & _ & Hres & Hq2).
  eexists remote, validated, r, publisher, v, _, _.
  repeat (split; [first [eassumption | reflexivity] |]).
  split.
  - intros r' Hnone Hsome. destruct publish_data as [pv pr]. cbn in Hnone, Hsome.
    subst pv pr. apply (resolved_repository w2), Hres.
  - intros ->. unfold overlap. cbn. rewrite Nat.eqb_refl. reflexivity.
Qed.

End DispatchClaims.

(** ** The claims at the sample requests *)

Section Runs.
Import Format Content Samples.

Lemma compound_suffix_detected_run :
  detect "shelf-reader-0.1.tar.gz" = Some (".tar.gz", "sdist")
  /\ @read_metadata healthy DIST_EXTENSIONS stored_artifact "shelf-reader-0.1.tar.gz"
     = @extract healthy stored_artifact "shelf-reader-0.1.tar.gz" "sdist"
  /\ DIST_TYPES "sdist" = Some SDist.
Proof.
  apply (@compound_suffix_detected healthy "shelf-reader-0.1.tar.gz" ".tar.gz"
           stored_artifact); [left; reflexivity | vm_compute; reflexivity].
Defined.

(** The saved unit stays when the body of [create] fails after the save;
    the transaction around it is what removes it. *)
Example unrendered_unit_rolled_back :
  length (content (snd (@create_body unrenderable upload empty_table))) = 1
  /\ content (snd (@create unrenderable upload empty_table)) = [].
Proof. vm_compute. split; reflexivity. Qed.



Lemma unsupported_extension_rejected_run :
  @create healthy upload_of_text empty_table
  = (inl (ValidationError (MessageDetail (unsupported_message "notes.txt"))),
     empty_table).
Proof.
  apply (@unsupported_extension_rejected healthy upload_of_text empty_table
           "/pulp/api/v3/artifacts/1/" "notes.txt" stored_artifact);
    [vm_compute; reflexivity | reflexivity | vm_compute; reflexivity |].
  repeat constructor.
Defined.

Lemma temporary_directory_released_run :
  tmpdirs (snd (@create broken_reader upload empty_table)) = tmpdirs empty_table
  /\ fst (@create broken_reader upload empty_table)
     = inl (OtherException "ValueError" "No PKG-INFO in archive").
Proof.
  split; [| vm_compute; reflexivity].
  apply (@temporary_directory_released broken_reader upload empty_table
           "/pulp/api/v3/artifacts/1/" "shelf-reader-0.1.tar.gz" ".tar.gz" "sdist"
           stored_artifact);
    [vm_compute; reflexivity | reflexivity | vm_compute; reflexivity
    | vm_compute; reflexivity].
Defined.

(** The copy goes under the temporary directory for a relative file name;
    an absolute file name replaces the directory in the joined path. *)
Example temp_path_of_upload :
  os_path_join (td_path 0) "shelf-reader-0.1.tar.gz"
    = "/tmp/tmp0/shelf-reader-0.1.tar.gz"
  /\ os_path_join (td_path 0) "/srv/shelf-reader-0.1.tar.gz"
    = "/srv/shelf-reader-0.1.tar.gz".
Proof. split; vm_compute; reflexivity. Qed.

Lemma created_unit_reads_back_run :
  exists w' u,
    @create healthy upload empty_table
      = (inr {| status := 201; body := saved_shelf_reader |}, w')
    /\ read_back w' "/pulp/api/v3/artifacts/1/" "shelf-reader-0.1.tar.gz" = Some u
    /\ pc_classifiers u = md_classifiers shelf_reader.
Proof.
  destruct (@create healthy upload empty_table) as [r w'] eqn:Hrun.
  assert (Hr : r = inr {| status := 201; body := saved_shelf_reader |}).
  { change r with (fst (r, w')). rewrite <- Hrun. vm_compute. reflexivity. }
  subst r.
  destruct (@created_unit_reads_back healthy upload empty_table w' _ Hrun)
    as (uri & filename & artifact & ext & packagetype & cls & m0 & u
        & Huri & Hname & _ & _ & _ & Hread & Hback & _ & _ & _ & _ & Hcls & _).
  exists w', u. split; [reflexivity |].
  assert (uri = "/pulp/api/v3/artifacts/1/") as ->.
  { assert (Hsome : upload !! "artifact" = Some "/pulp/api/v3/artifacts/1/")
      by (vm_compute; reflexivity).
    rewrite Huri in Hsome. inversion Hsome. reflexivity. }
  assert (filename = "shelf-reader-0.1.tar.gz") as ->.
  { assert (Hsome : upload !! "filename" = Some "shelf-reader-0.1.tar.gz")
      by (vm_compute; reflexivity).
    rewrite Hname in Hsome. inversion Hsome. reflexivity. }
  split; [exact Hback |].
  cbn in Hread. inversion Hread; subst m0. exact Hcls.
Defined.

End Runs.

Section DispatchRuns.
Import Dispatch Samples.

(** A publish request that names only a repository: the read of the latest
    version is the first event of the handler, before any enqueue. *)
Lemma publish_reads_before_reserving :
  fst (publish 1 publish_shelf idle) = inr 0
  /\ new_events idle (snd (publish 1 publish_shelf idle))
     = [EvLatest shelf;
        EvEnqueue {| job_task := TaskPublish 1 71;
                     job_resources := [RepositoryResource shelf;
                                       PublisherResource index] |}]
  /\ reads_under_reservation false
       (new_events idle (snd (publish 1 publish_shelf idle))) = false.
Proof. vm_compute. repeat split; reflexivity. Qed.

Lemma latest_resolved_before_enqueue_run :
  fst (publish 1 publish_shelf idle) = inr 0
  /\ events (snd (publish 1 publish_shelf idle))
     = [EvLatest shelf;
        EvEnqueue {| job_task := TaskPublish 1 71;
                     job_resources := [RepositoryResource shelf;
                                       PublisherResource index] |}].
Proof.
  destruct (latest_resolved_before_enqueue idle 1 index shelf shelf_v2)
    as (Hhandle & Hevents & _); [reflexivity | reflexivity |].
  split; [exact Hhandle | exact Hevents].
Defined.

Lemma publish_rejects_both_or_neither_run :
  publish 1 publish_both idle = (inl InvalidRequest, idle).
Proof.
  destruct (publish_rejects_both_or_neither idle 1 publish_both) as [_ Hinvalid].
  - left. split; discriminate.
  - apply (Hinvalid index). reflexivity.
Defined.

Lemma reservations_of_sync_and_publish_run :
  exists sync_job publish_job,
    queue (snd (@sync lenient 2 sync_shelf idle)) = [sync_job]
    /\ job_resources sync_job = [RepositoryResource shelf; RemoteResource pypi]
    /\ queue (snd (publish 1 publish_shelf idle)) = [publish_job]
    /\ job_resources publish_job
       = [RepositoryResource shelf; PublisherResource index]
    /\ overlap (job_resources sync_job) (job_resources publish_job) = true.
Proof.
  destruct (@sync lenient 2 sync_shelf idle) as [r1 w1'] eqn:Hsync.
  destruct (publish 1 publish_shelf idle) as [r2 w2'] eqn:Hpublish.
  assert (Hr1 : r1 = inr 0).
  { change r1 with (fst (r1, w1')). rewrite <- Hsync. reflexivity. }
  assert (Hr2 : r2 = inr 0).
  { change r2 with (fst (r2, w2')). rewrite <- Hpublish. reflexivity. }
  subst r1 r2.
  destruct (@reservations_of_sync_and_publish lenient _ _ _ _ _ _ _ _ _ _
              Hsync Hpublish)
    as (remote & validated & r & publisher & v & sync_job & publish_job
        & Hremote & Hvalid & Hrepo & Hq1 & Hres1 & Hpub & Hresolved & Hq2
        & Hres2 & _ & Hoverlap).
  cbn in Hremote, Hvalid, Hrepo, Hpub, Hresolved.
  inversion Hremote; subst remote. inversion Hvalid; subst validated.
  inversion Hrepo; subst r. inversion Hpub; subst publisher.
  inversion Hresolved; subst v.
  exists sync_job, publish_job. cbn [snd].
  split; [exact Hq1 |]. split; [exact Hres1 |].
  split; [exact Hq2 |]. split; [exact Hres2 |].
  apply Hoverlap. reflexivity.
Defined.

End DispatchRuns.

(** ** More about format detection *)

Section DetectionProperties.
Import Format Content.
Context `{Collaborators}.

(** X1. The loop of [create] finds the same item, and so does the same
    work, in whatever order the items of [DIST_EXTENSIONS] are listed. *)
Theorem detection_ignores_item_order
    (items : list (string * string)) (artifact : Artifact) (filename : string) :
  Permutation items DIST_EXTENSIONS ->
  first_match items filename = detect filename
  /\ read_metadata items artifact filename
     = read_metadata DIST_EXTENSIONS artifact filename.
Proof.
  intros Hperm.
  assert (Hsame : first_match items filename = detect filename)
    by (apply detect_any_order, Hperm).
  split; [exact Hsame |].
  rewrite !read_metadata_first_match. fold (detect filename).
  rewrite Hsame. reflexivity.
Qed.

(** X2. A file name is detected with an extension and a package type
    exactly when the pair is an item of the table and the file name is some
    prefix, possibly empty, followed by the extension. *)
Theorem detect_iff (filename ext packagetype : string) :
  detect filename = Some (ext, packagetype) <->
  In (ext, packagetype) DIST_EXTENSIONS
  /\ exists prefix, filename = prefix +:+ ext.
Proof.
  split.
  - intros Hdet. destruct (first_match_Some _ _ _ _ Hdet) as [Hin Hend].
    split; [exact Hin | apply endswith_inv, Hend].
  - intros [Hin [prefix ->]]. apply detect_unique; [exact Hin |].
    apply endswith_app.
Qed.

(** X3. Every package type the loop can stop at is a key of [DIST_TYPES]:
    the lookup in the body of the loop never fails, and the reader of the
    class is called on the path, once. *)
Theorem detected_type_has_reader
    (filename ext packagetype path : string) (w : World) :
  detect filename = Some (ext, packagetype) ->
  exists cls,
    DIST_TYPES packagetype = Some cls
    /\ read packagetype path w = (pkginfo_read cls path, log w (EvRead cls path)).
Proof.
  intros Hdet. destruct (first_match_Some _ _ _ _ Hdet) as [Hin _].
  assert (Hcls : exists cls, DIST_TYPES packagetype = Some cls).
  { cbn in Hin.
    repeat (destruct Hin as [Heq | Hin];
            [injection Heq as <- <-; eexists; reflexivity |]).
    contradiction. }
  destruct Hcls as [cls Hcls]. exists cls. split; [exact Hcls |].
  unfold read. rewrite Hcls. reflexivity.
Qed.

End DetectionProperties.

(** ** More about the content view set *)

Section ContentProperties.
Import Format Content.
Context `{Collaborators}.

(** The body of the loop, run: the outcome of the copy and of the reader,
    and the events of the directory around them. *)
Lemma extract_run artifact filename packagetype w :
  let td := fresh (tmpdirs w) in
  let src := artifact_path artifact in
  let dst := os_path_join (td_path td) filename in
  extract artifact filename packagetype w =
  match copy2 src dst with
  | Some e => (inl e, after w [EvMkdtemp td; EvCopy src dst; EvCleanup td])
  | None =>
      match DIST_TYPES packagetype with
      | None =>
          (inl (KeyError packagetype),
           after w [EvMkdtemp td; EvCopy src dst; EvCleanup td])
      | Some cls =>
          (match pkginfo_read cls dst with
           | inl e => inl e
           | inr m => inr (set_packagetype m packagetype)
           end,
           after w [EvMkdtemp td; EvCopy src dst; EvRead cls dst; EvCleanup td])
      end
  end.
Proof.
  cbv zeta.
  unfold extract, with_TemporaryDirectory, shutil_copy2, read, bind, emit, lift,
    ret, raise, after.
  destruct (copy2 _ _) as [e |];
    [| destruct (DIST_TYPES packagetype) as [cls |];
       [destruct (pkginfo_read cls _) as [e | m] |]];
    unfold log, set_tmpdirs; cbn [content tmpdirs events];
    rewrite fresh_removed, <- !app_assoc; reflexivity.
Qed.

(** X4. When the artifact reference of a request does not resolve, [create]
    raises the error of the resolver and touches nothing, whatever the file
    name is, present or not. One error is replaced: a [KeyError] raised
    inside the resolver is caught by the handler of the missing field and
    reported as a missing [artifact] field. *)
Theorem unresolved_artifact_rejected
    (request_data : gmap string string) (w : World) (uri : string) (e : Exception) :
  request_data !! "artifact" = Some uri ->
  get_resource uri = inl e ->
  create request_data w =
    (inl (match e with
          | KeyError _ =>
              ValidationError (FieldDetail "artifact" "This field is required")
          | _ => e
          end), w).
Proof.
  intros Huri Hres.
  unfold create, atomic, create_body, try_except_KeyError, getitem,
    bind, lift, ret, raise.
  rewrite Huri, Hres.
  destruct e; cbn; rewrite set_content_same; reflexivity.
Qed.

(** X5. Whatever the request and the collaborators, the events of one call
    of [create] are none at all, or one directory created, the copy into it,
    and its removal, or the same with one read between the copy and the
    removal. So the reader is called at most once, only after the copy, and
    on the very path the copy was written to. *)
Theorem create_events (request_data : gmap string string) (w : World) :
  let td := fresh (tmpdirs w) in
  exists evs,
    events (snd (create request_data w)) = events w ++ evs
    /\ (evs = []
        \/ exists src dst,
             evs = [EvMkdtemp td; EvCopy src dst; EvCleanup td]
             \/ exists cls,
                  evs = [EvMkdtemp td; EvCopy src dst; EvRead cls dst;
                         EvCleanup td]).
Proof.
  cbv zeta.
  destruct (atomic_frame (create_body request_data) w) as [_ Hev].
  unfold create. rewrite Hev. clear Hev.
  assert (Hquiet : forall r : Exception + Response,
            exists evs, events (snd (r, w)) = events w ++ evs
              /\ (evs = [] \/ exists src dst,
                    evs = [EvMkdtemp (fresh (tmpdirs w)); EvCopy src dst;
                           EvCleanup (fresh (tmpdirs w))]
                    \/ exists cls,
                         evs = [EvMkdtemp (fresh (tmpdirs w)); EvCopy src dst;
                                EvRead cls dst; EvCleanup (fresh (tmpdirs w))])).
  { intros r. exists []. cbn. rewrite app_nil_r. auto. }
  destruct (request_data !! "artifact") as [uri |] eqn:Huri.
  2:{ unfold create_body, try_except_KeyError, getitem, bind, raise.
      rewrite Huri. apply Hquiet. }
  destruct (get_resource uri) as [e | artifact] eqn:Hres.
  { unfold create_body, try_except_KeyError, getitem, bind, lift, ret, raise.
    rewrite Huri, Hres. destruct e; apply Hquiet. }
  destruct (request_data !! "filename") as [filename |] eqn:Hname.
  2:{ unfold create_body, try_except_KeyError, getitem, bind, lift, ret, raise.
      rewrite Huri, Hres, Hname. apply Hquiet. }
  rewrite (create_body_reaches _ _ _ _ _ Huri Hres Hname).
  unfold bind. rewrite read_metadata_first_match.
  destruct (first_match DIST_EXTENSIONS filename) as [[ext packagetype] |];
    [| apply Hquiet].
  pose proof (extract_run artifact filename packagetype w) as Hrun.
  cbv zeta in Hrun. rewrite Hrun. clear Hrun.
  set (src := artifact_path artifact).
  set (dst := os_path_join (td_path (fresh (tmpdirs w))) filename).
  destruct (copy2 src dst) as [e |].
  { eexists. split; [reflexivity |]. right. exists src, dst. left. reflexivity. }
  destruct (DIST_TYPES packagetype) as [cls |].
  2:{ eexists. split; [reflexivity |]. right. exists src, dst. left. reflexivity. }
  destruct (pkginfo_read cls dst) as [e | m].
  { eexists. split; [reflexivity |]. right. exists src, dst. right.
    exists cls. reflexivity. }
  destruct (register_frame (set_packagetype m packagetype) filename request_data
              (after w [EvMkdtemp (fresh (tmpdirs w)); EvCopy src dst;
                        EvRead cls dst; EvCleanup (fresh (tmpdirs w))]))
    as [_ Hev].
  destruct (register _ _ _ _) as [r w2]. cbn [snd] in *. rewrite Hev.
  eexists. split; [reflexivity |]. right. exists src, dst. right.
  exists cls. reflexivity.
Qed.

End ContentProperties.

Section TemporaryPath.
Import Format Content.

Lemma endswith_slash_digit (c : ascii) (s : string) :
  Ascii.eqb c "/" = false ->
  endswith (String c s) "/" = endswith s "/".
Proof.
  intros Hc. cbn [endswith].
  replace (String.eqb (String c s) "/") with false; [reflexivity |].
  cbn. rewrite Hc. reflexivity.
Qed.

Lemma pretty_N_char_not_sep (x : N) : Ascii.eqb (pretty_N_char x) "/" = false.
Proof. unfold pretty_N_char. repeat case_match; reflexivity. Qed.

Lemma pretty_N_go_no_sep (x : N) (s : string) :
  endswith s "/" = false -> endswith (pretty_N_go x s) "/" = false.
Proof.
  revert s. induction (N.lt_wf_0 x) as [x _ IH]. intros s Hs.
  destruct (N.eq_dec x 0%N) as [-> | Hpos].
  - rewrite pretty_N_go_0. exact Hs.
  - assert (0 < x)%N as Hlt by lia.
    rewrite pretty_N_go_step by exact Hlt.
    apply IH; [apply N.div_lt; [exact Hlt | reflexivity] |].
    rewrite endswith_slash_digit; [exact Hs | apply pretty_N_char_not_sep].
Qed.

(** The path of a temporary directory does not end in a separator. *)
Lemma td_path_no_sep (td : nat) : endswith (td_path td) "/" = false.
Proof.
  assert (Hdigits : endswith (pretty td) "/" = false).
  { unfold pretty, pretty_nat, pretty, pretty_N.
    destruct (decide (N.of_nat td = 0%N)); [reflexivity |].
    apply pretty_N_go_no_sep. reflexivity. }
  unfold td_path.
  change ("/tmp/tmp" +:+ pretty td)
    with (String "/" (String "t" (String "m" (String "p" (String "/"
           (String "t" (String "m" (String "p" (pretty td))))))))).
  assert (Hsep : forall c rest,
            endswith (String "/" (String c rest)) "/"
            = endswith (String c rest) "/").
  { intros c rest. cbn [endswith].
    replace (String.eqb (String "/" (String c rest)) "/") with false
      by reflexivity.
    reflexivity. }
  rewrite Hsep. rewrite !endswith_slash_digit by reflexivity.
  rewrite Hsep. rewrite !endswith_slash_digit by reflexivity.
  exact Hdigits.
Qed.

End TemporaryPath.

Section ExtractionProperties.
Import Format Content.
Context `{Collaborators}.

Lemma create_reaching_extract request_data w uri artifact filename ext packagetype :
  request_data !! "artifact" = Some uri ->
  get_resource uri = inr artifact ->
  request_data !! "filename" = Some filename ->
  detect filename = Some (ext, packagetype) ->
  create_body request_data w =
  bind (extract artifact filename packagetype)
       (fun m => register m filename request_data) w.
Proof.
  intros Huri Hres Hname Hdet.
  rewrite (create_body_reaches _ _ _ _ _ Huri Hres Hname).
  unfold bind. rewrite read_metadata_first_match.
  unfold detect in Hdet. rewrite Hdet. reflexivity.
Qed.

(** X6. The serializer data take the file name and the artifact reference
    from the request and the classifiers from the metadata object, one
    record per classifier in the same order, whatever
    [parse_project_metadata] returned under these keys; every key other
    than the five that are assigned is as [parse_project_metadata] left
    it. *)
Theorem build_data_keys
    (metadata : Metadata) (filename artifact_uri key : string) :
  build_data metadata filename artifact_uri !! "filename" = Some (VStr filename)
  /\ build_data metadata filename artifact_uri !! "artifact"
     = Some (VStr artifact_uri)
  /\ build_data metadata filename artifact_uri !! "classifiers"
     = Some (VList (map (fun c => VDict [("name", VStr c)])
                        (md_classifiers metadata)))
  /\ (~ In key ["classifiers"; "packagetype"; "version"; "filename"; "artifact"] ->
      build_data metadata filename artifact_uri !! key
      = parse_project_metadata metadata !! key).
Proof.
  unfold build_data. repeat split.
  - rewrite lookup_insert_ne by discriminate. apply lookup_insert_eq.
  - apply lookup_insert_eq.
  - rewrite !lookup_insert_ne by discriminate. apply lookup_insert_eq.
  - intros Hkey. cbn [In] in Hkey.
    rewrite !lookup_insert_ne; [reflexivity | | | | |];
      intros <-; apply Hkey; auto 10.
Qed.

(** X7. Where the artifact is copied to and read from. For a file name that
    does not start with a separator it is the file name inside the fresh
    temporary directory; for a file name that starts with a separator it is
    the file name itself, outside the temporary directory, because
    [os.path.join] drops the directory. *)
Theorem copy_destination
    (request_data : gmap string string) (w : World)
    (uri filename ext packagetype : string) (artifact : Artifact) :
  request_data !! "artifact" = Some uri ->
  get_resource uri = inr artifact ->
  request_data !! "filename" = Some filename ->
  detect filename = Some (ext, packagetype) ->
  let td := fresh (tmpdirs w) in
  let dst := if startswith_sep filename then filename
             else td_path td +:+ "/" +:+ filename in
  exists evs,
    events (snd (create request_data w))
    = events w ++ EvMkdtemp td :: EvCopy (artifact_path artifact) dst :: evs.
Proof.
  intros Huri Hres Hname Hdet. cbv zeta.
  assert (Hdst : os_path_join (td_path (fresh (tmpdirs w))) filename
                 = if startswith_sep filename then filename
                   else td_path (fresh (tmpdirs w)) +:+ "/" +:+ filename).
  { unfold os_path_join. destruct (startswith_sep filename); [reflexivity |].
    rewrite td_path_no_sep.
    replace (String.eqb (td_path (fresh (tmpdirs w))) "") with false
      by reflexivity.
    reflexivity. }
  rewrite <- Hdst.
  destruct (atomic_frame (create_body request_data) w) as [_ Hev].
  unfold create. rewrite Hev. clear Hev.
  rewrite (create_reaching_extract _ _ _ _ _ _ _ Huri Hres Hname Hdet).
  unfold bind. pose proof (extract_run artifact filename packagetype w) as Hrun.
  cbv zeta in Hrun. rewrite Hrun. clear Hrun.
  destruct (copy2 _ _) as [e |]; [eexists; reflexivity |].
  destruct (DIST_TYPES packagetype) as [cls |]; [| eexists; reflexivity].
  destruct (pkginfo_read cls _) as [e | m]; [eexists; reflexivity |].
  match goal with
  | |- context [register ?m ?f ?r ?w0] =>
      destruct (register_frame m f r w0) as [_ Hev];
      destruct (register m f r w0) as [r2 w2]
  end.
  cbn [snd] in *. rewrite Hev. eexists. reflexivity.
Qed.

(** X8. When the reader raises on the copy, [create] raises the very same
    exception: it is not turned into a validation error, nothing is saved,
    and the temporary directory has been created and removed around one
    copy and one read. *)
Theorem reader_error_surfaces
    (request_data : gmap string string) (w : World)
    (uri filename ext packagetype : string) (artifact : Artifact)
    (cls : Reader) (e : Exception) :
  request_data !! "artifact" = Some uri ->
  get_resource uri = inr artifact ->
  request_data !! "filename" = Some filename ->
  detect filename = Some (ext, packagetype) ->
  let td := fresh (tmpdirs w) in
  let src := artifact_path artifact in
  let dst := os_path_join (td_path td) filename in
  copy2 src dst = None ->
  DIST_TYPES packagetype = Some cls ->
  pkginfo_read cls dst = inl e ->
  create request_data w =
    (inl e, after w [EvMkdtemp td; EvCopy src dst; EvRead cls dst; EvCleanup td]).
Proof.
  intros Huri Hres Hname Hdet. cbv zeta. intros Hcopy Hcls Hread.
  unfold create, atomic.
  rewrite (create_reaching_extract _ _ _ _ _ _ _ Huri Hres Hname Hdet).
  unfold bind. pose proof (extract_run artifact filename packagetype w) as Hrun.
  cbv zeta in Hrun. rewrite Hrun, Hcopy, Hcls, Hread. reflexivity.
Qed.

(** X9. When the copy fails, the reader is never called: [create] raises
    the exception of the copy, and the only events are the directory
    created, the copy attempted, and the directory removed. *)
Theorem copy_error_skips_reader
    (request_data : gmap string string) (w : World)
    (uri filename ext packagetype : string) (artifact : Artifact)
    (e : Exception) :
  request_data !! "artifact" = Some uri ->
  get_resource uri = inr artifact ->
  request_data !! "filename" = Some filename ->
  detect filename = Some (ext, packagetype) ->
  let td := fresh (tmpdirs w) in
  let src := artifact_path artifact in
  let dst := os_path_join (td_path td) filename in
  copy2 src dst = Some e ->
  create request_data w =
    (inl e, after w [EvMkdtemp td; EvCopy src dst; EvCleanup td]).
Proof.
  intros Huri Hres Hname Hdet. cbv zeta. intros Hcopy.
  unfold create, atomic.
  rewrite (create_reaching_extract _ _ _ _ _ _ _ Huri Hres Hname Hdet).
  unfold bind. pose proof (extract_run artifact filename packagetype w) as Hrun.
  cbv zeta in Hrun. rewrite Hrun, Hcopy. reflexivity.
Qed.

(** X10. [create] keeps the content table in agreement with the extension
    table: if every stored unit has the package type that the table gives
    for its file name, then so it is after the call, whether it raised or
    saved a unit. *)
Theorem create_keeps_units_typed
    (request_data : gmap string string) (w : World) :
  forallb typed_by_extension (content w) = true ->
  forallb typed_by_extension (content (snd (create request_data w))) = true.
Proof.
  intros Hinv.
  destruct (create request_data w) as [[e | resp] w'] eqn:Hrun; cbn [snd].
  - rewrite (atomic_rollback _ _ _ _ Hrun). exact Hinv.
  - unfold create, atomic in Hrun.
    destruct (create_body request_data w) as [[e | resp'] w2] eqn:Hbody;
      [discriminate |].
    inversion Hrun; subst resp' w2; clear Hrun.
    destruct (create_body_success _ _ _ _ Hbody)
      as (uri & artifact & filename & ext & packagetype & m & w1
          & _ & _ & _ & Hdet & Hex & Hreg).
    destruct (extract_success _ _ _ _ _ _ Hex) as (cls & m0 & _ & _ & _ & ->).
    destruct (register_success _ _ _ _ _ _ Hreg)
      as (uri' & u & _ & Hvalid & _ & _ & _ & ->).
    destruct (is_valid_build_data _ _ _ _ Hvalid) as (_ & _ & Ht & Hf & _ & _).
    cbn [md_packagetype set_packagetype] in Ht. injection Ht as Hpt.
    pose proof (extract_frame artifact filename packagetype w) as Hframe.
    cbv zeta in Hframe. rewrite Hex in Hframe. destruct Hframe as [Hcontent _].
    cbn [snd] in Hcontent. cbn [content set_content].
    rewrite forallb_app, Hcontent, Hinv. cbn [forallb andb].
    unfold typed_by_extension. rewrite Hf, Hdet, Hpt, String.eqb_refl.
    reflexivity.
Qed.

End ExtractionProperties.

(** ** More about the dispatching view sets *)

Section DispatchProperties.
Import Dispatch.

Lemma publish_failure pk data w e w' :
  publish pk data w = (inl e, w') -> queue w' = queue w.
Proof.
  unfold publish, get_publisher, bind, lift, ret, raise.
  destruct (find _ (publishers w)) as [publisher |];
    [| intros Heq; inversion Heq; reflexivity].
  unfold RepositoryPublishURLSerializer, latest, enqueue_with_reservation.
  destruct data as [[v |] [r |]]; cbn [publish_repository_version
    publish_repository]; try (intros Heq; inversion Heq; reflexivity).
  destruct (latest_of (versions w) r) as [v |];
    intros Heq; inversion Heq; reflexivity.
Qed.

Section WithPlatform.
Context `{Platform}.

Lemma sync_failure pk data w e w' :
  sync pk data w = (inl e, w') -> w' = w.
Proof.
  unfold sync, get_remote, bind, lift, ret, raise.
  destruct (find _ (remotes w)) as [remote |];
    [| intros Heq; inversion Heq; reflexivity].
  destruct (RepositorySyncURLSerializer data) as [e' | validated];
    [intros Heq; inversion Heq; reflexivity |].
  destruct (sync_repository validated) as [r |];
    [| intros Heq; inversion Heq; reflexivity].
  unfold enqueue_with_reservation. discriminate.
Qed.

(** X11. [sync] queues one job or changes nothing. When it raises (no such
    remote, data rejected, no repository) the world is exactly as before.
    When it returns, the handle is the place of the new job at the end of
    the queue, the job is the sync task of the remote of the URL, and the
    ledger of versions is untouched: the sync itself has not run. *)
Theorem sync_all_or_nothing (pk : nat) (data : SyncData) (w : World) :
  match sync pk data w with
  | (inl _, w') => w' = w
  | (inr handle, w') =>
      handle = length (queue w)
      /\ versions w' = versions w
      /\ exists repository_pk mirror resources,
           let job := {| job_task := TaskSync pk repository_pk mirror;
                         job_resources := resources |} in
           queue w' = queue w ++ [job]
           /\ events w' = events w ++ [EvEnqueue job]
  end.
Proof.
  unfold sync, get_remote, bind, lift, ret, raise.
  destruct (find _ (remotes w)) as [remote |] eqn:Hfind; [| reflexivity].
  destruct (RepositorySyncURLSerializer data) as [e | validated]; [reflexivity |].
  destruct (sync_repository validated) as [r |]; [| reflexivity].
  unfold enqueue_with_reservation. cbn [log push queue versions events].
  apply find_some in Hfind as [_ Hpk]. apply Nat.eqb_eq in Hpk. rewrite Hpk.
  split; [reflexivity |]. split; [reflexivity |].
  eexists _, _, _. cbv zeta. split; reflexivity.
Qed.

End WithPlatform.

(** X12. [publish] never leaves a job behind when it raises, and it never
    writes to the ledger of versions. When it raises, the queue is as
    before and at most one read of the latest version was logged; when it
    returns, the handle is the place of the one new job at the end of the
    queue. *)
Theorem publish_all_or_nothing (pk : nat) (data : PublishData) (w : World) :
  match publish pk data w with
  | (inl _, w') =>
      queue w' = queue w
      /\ versions w' = versions w
      /\ (events w' = events w \/ exists r, events w' = events w ++ [EvLatest r])
  | (inr handle, w') =>
      handle = length (queue w)
      /\ versions w' = versions w
      /\ exists job, queue w' = queue w ++ [job]
  end.
Proof.
  unfold publish, get_publisher, bind, lift, ret, raise.
  destruct (find _ (publishers w)) as [publisher |]; [| auto].
  unfold RepositoryPublishURLSerializer, latest, enqueue_with_reservation.
  destruct data as [[v |] [r |]]; cbn [publish_repository_version
    publish_repository log push queue versions events]; auto.
  - split; [reflexivity |]. split; [reflexivity |]. eexists. reflexivity.
  - destruct (latest_of (versions w) r) as [v |];
      cbn [log push queue versions events].
    + split; [reflexivity |]. split; [reflexivity |]. eexists. reflexivity.
    + split; [reflexivity |]. split; [reflexivity |]. right. eexists. reflexivity.
Qed.

(** X13. A publish request that supplies a repository version is queued
    with that version as it is: the ledger is not read, so the version need
    not be the latest of its repository, and the repository reserved is the
    one the supplied version belongs to. *)
Theorem publish_explicit_version
    (pk : nat) (publisher : Publisher) (v : RepositoryVersion) (w : World) :
  find (fun p => Nat.eqb (publisher_pk p) pk) (publishers w) = Some publisher ->
  let data := {| publish_repository_version := Some v;
                 publish_repository := None |} in
  let job := {| job_task := TaskPublish (publisher_pk publisher) (version_pk v);
                job_resources := [RepositoryResource (repository v);
                                  PublisherResource publisher] |} in
  publish pk data w = (inr (length (queue w)), log (push w job) (EvEnqueue job))
  /\ new_events w (snd (publish pk data w)) = [EvEnqueue job].
Proof.
  intros Hfind. cbv zeta.
  unfold publish, bind, lift, ret. rewrite (get_publisher_found _ _ _ Hfind).
  cbn [RepositoryPublishURLSerializer publish_repository_version
       publish_repository].
  unfold enqueue_with_reservation, new_events.
  cbn [snd log push events]. rewrite drop_app_length.
  split; reflexivity.
Qed.

(** X14. A publish request that names only a repository without any
    version is not turned down as invalid: the handler reads the ledger,
    gets nothing, and fails on the attribute access of the missing version.
    Nothing is queued. *)
Theorem publish_without_versions
    (pk : nat) (publisher : Publisher) (r : Repository) (w : World) :
  find (fun p => Nat.eqb (publisher_pk p) pk) (publishers w) = Some publisher ->
  latest_of (versions w) r = None ->
  publish pk {| publish_repository_version := None;
                publish_repository := Some r |} w
  = (inl (AttributeError "'NoneType' object has no attribute 'repository'"),
     log w (EvLatest r)).
Proof.
  intros Hfind Hnone.
  unfold publish, bind, lift, ret, raise. rewrite (get_publisher_found _ _ _ Hfind).
  cbn [RepositoryPublishURLSerializer publish_repository_version
       publish_repository latest].
  rewrite Hnone. reflexivity.
Qed.

(** X15. The jobs the two handlers queue work only on what they reserve: if
    every job of the queue reserves the remote and the repository, or the
    publisher, that its task names by primary key, then so does every job
    of the queue after a sync and after a publish, whatever their
    outcome. *)
Theorem queued_jobs_name_reserved
    `{Platform} (w : World) (pk : nat)
    (sync_data : SyncData) (publish_data : PublishData) :
  forallb (fun j => names_reserved (job_task j) (job_resources j)) (queue w)
    = true ->
  forallb (fun j => names_reserved (job_task j) (job_resources j))
          (queue (snd (sync pk sync_data w))) = true
  /\ forallb (fun j => names_reserved (job_task j) (job_resources j))
             (queue (snd (publish pk publish_data w))) = true.
Proof.
  intros Hinv. split.
  - destruct (sync pk sync_data w) as [[e | h] w'] eqn:Hrun; cbn [snd].
    + rewrite (sync_failure _ _ _ _ _ Hrun). exact Hinv.
    + destruct (sync_success _ _ _ _ _ Hrun)
        as (remote & validated & r & _ & _ & _ & ->).
      rewrite forallb_app, Hinv. cbn.
      destruct remote as [x], r as [y]. cbn. rewrite !Nat.eqb_refl.
      reflexivity.
  - destruct (publish pk publish_data w) as [[e | h] w'] eqn:Hrun; cbn [snd].
    + rewrite (publish_failure _ _ _ _ _ Hrun). exact Hinv.
    + destruct (publish_success _ _ _ _ _ Hrun)
        as (publisher & v & _ & _ & _ & ->).
      rewrite forallb_app, Hinv. cbn.
      destruct publisher as [x]. cbn. rewrite Nat.eqb_refl.
      reflexivity.
Qed.

End DispatchProperties.

(** ** The further properties at the sample requests *)

Section MoreRuns.
Import Format Content Samples.

Lemma detection_ignores_item_order_run :
  first_match reversed_table "shelf_reader-0.1-py3-none-any.whl"
  = detect "shelf_reader-0.1-py3-none-any.whl".
Proof.
  apply (@detection_ignores_item_order healthy reversed_table stored_artifact
           "shelf_reader-0.1-py3-none-any.whl").
  apply Permutation_sym, Permutation_rev.
Defined.

Lemma detected_type_has_reader_run :
  exists cls,
    DIST_TYPES "sdist" = Some cls
    /\ @read healthy "sdist" "/tmp/tmp0/shelf-reader-0.1.tar.gz" empty_table
       = (@pkginfo_read healthy cls "/tmp/tmp0/shelf-reader-0.1.tar.gz",
          log empty_table (EvRead cls "/tmp/tmp0/shelf-reader-0.1.tar.gz")).
Proof.
  apply (@detected_type_has_reader healthy "shelf-reader-0.1.tar.gz" ".tar.gz").
  vm_compute. reflexivity.
Defined.

Lemma unresolved_artifact_rejected_run :
  @create resolver_key_error upload empty_table
  = (inl (ValidationError (FieldDetail "artifact" "This field is required")),
     empty_table).
Proof.
  apply (@unresolved_artifact_rejected resolver_key_error upload empty_table
           "/pulp/api/v3/artifacts/1/" (KeyError "pk"));
    [vm_compute; reflexivity | reflexivity].
Defined.

Lemma copy_destination_run :
  exists evs,
    events (snd (@create healthy upload_to_absolute_path empty_table))
    = events empty_table
      ++ EvMkdtemp (fresh (tmpdirs empty_table))
         :: EvCopy "/var/lib/pulp/artifact/3f/9a2c" "/srv/shelf-reader-0.1.tar.gz"
         :: evs.
Proof.
  apply (@copy_destination healthy upload_to_absolute_path empty_table
           "/pulp/api/v3/artifacts/1/" "/srv/shelf-reader-0.1.tar.gz"
           ".tar.gz" "sdist" stored_artifact);
    [vm_compute; reflexivity | reflexivity | vm_compute; reflexivity
    | vm_compute; reflexivity].
Defined.

Lemma reader_error_surfaces_run :
  fst (@create broken_reader upload empty_table)
  = inl (OtherException "ValueError" "No PKG-INFO in archive")
  /\ content (snd (@create broken_reader upload empty_table)) = [].
Proof.
  rewrite (@reader_error_surfaces broken_reader upload empty_table
             "/pulp/api/v3/artifacts/1/" "shelf-reader-0.1.tar.gz" ".tar.gz"
             "sdist" stored_artifact SDist
             (OtherException "ValueError" "No PKG-INFO in archive"));
    [split; reflexivity | vm_compute; reflexivity | reflexivity
    | vm_compute; reflexivity | vm_compute; reflexivity | reflexivity
    | reflexivity | reflexivity].
Defined.

Lemma copy_error_skips_reader_run :
  fst (@create full_disk upload empty_table)
  = inl (OtherException "OSError" "No space left on device")
  /\ length (events (snd (@create full_disk upload empty_table))) = 3.
Proof.
  rewrite (@copy_error_skips_reader full_disk upload empty_table
             "/pulp/api/v3/artifacts/1/" "shelf-reader-0.1.tar.gz" ".tar.gz"
             "sdist" stored_artifact
             (OtherException "OSError" "No space left on device"));
    [split; reflexivity | vm_compute; reflexivity | reflexivity
    | vm_compute; reflexivity | vm_compute; reflexivity | reflexivity].
Defined.

Lemma create_keeps_units_typed_run :
  forallb typed_by_extension
          (content (snd (@create healthy upload empty_table))) = true.
Proof.
  apply (@create_keeps_units_typed healthy upload empty_table). reflexivity.
Defined.

End MoreRuns.

Section MoreDispatchRuns.
Import Dispatch Samples.

(** The first version of the repository is published although a second
    one exists. *)
Lemma publish_explicit_version_run :
  publish 1 publish_shelf_v1 idle
  = (inr 0,
     log (push idle {| job_task := TaskPublish 1 70;
                       job_resources := [RepositoryResource shelf;
                                         PublisherResource index] |})
         (EvEnqueue {| job_task := TaskPublish 1 70;
                       job_resources := [RepositoryResource shelf;
                                         PublisherResource index] |})).
Proof.
  apply (publish_explicit_version 1 index shelf_v1 idle). reflexivity.
Defined.

Lemma publish_without_versions_run :
  publish 1 publish_shelf bare
  = (inl (AttributeError "'NoneType' object has no attribute 'repository'"),
     log bare (EvLatest shelf)).
Proof.
  apply (publish_without_versions 1 index shelf bare); reflexivity.
Defined.

Lemma queued_jobs_name_reserved_run :
  forallb (fun j => names_reserved (job_task j) (job_resources j))
          (queue (snd (@sync lenient 2 sync_shelf idle))) = true
  /\ forallb (fun j => names_reserved (job_task j) (job_resources j))
             (queue (snd (publish 2 publish_shelf idle))) = true.
Proof.
  apply (@queued_jobs_name_reserved lenient idle 2 sync_shelf publish_shelf).
  reflexivity.
Defined.

End MoreDispatchRuns.

(** ** Where the package type and the version of a unit come from *)

Section Provenance.
Import Format Content.
Context `{Collaborators}.

(** C6, as the code has it. For a request that reaches the reader and for
    which the reader returns an object, the object that goes on to
    normalization is the reader's with its [packagetype] attribute
    overwritten by the package type that [DIST_EXTENSIONS] gives for the
    file name. The serializer data then hold that package type, whatever
    the reader's object said, and the version of the reader's object as it
    is, both replacing what [parse_project_metadata] returned; when
    [create] returns, the saved unit has that package type and that
    version. *)
Theorem packagetype_from_extension_version_from_reader
    (request_data : gmap string string) (w : World)
    (uri filename ext packagetype : string) (artifact : Artifact)
    (cls : Reader) (m0 : Metadata) :
  request_data !! "artifact" = Some uri ->
  get_resource uri = inr artifact ->
  request_data !! "filename" = Some filename ->
  detect filename = Some (ext, packagetype) ->
  let td := fresh (tmpdirs w) in
  let src := artifact_path artifact in
  let dst := os_path_join (td_path td) filename in
  let w1 := after w [EvMkdtemp td; EvCopy src dst; EvRead cls dst; EvCleanup td] in
  copy2 src dst = None ->
  DIST_TYPES packagetype = Some cls ->
  pkginfo_read cls dst = inr m0 ->
  let metadata := set_packagetype m0 packagetype in
  let data := build_data metadata filename uri in
  extract artifact filename packagetype w = (inr metadata, w1)
  /\ create_body request_data w = register metadata filename request_data w1
  /\ data !! "packagetype" = Some (VStr packagetype)
  /\ data !! "version" = Some (md_version m0)
  /\ (forall resp w',
        create request_data w = (inr resp, w') ->
        exists u,
          content w' = content w ++ [u]
          /\ pc_packagetype u = packagetype
          /\ VStr (pc_version u) = md_version m0).
Proof.
  intros Huri Hres Hname Hdet. cbv zeta. intros Hcopy Hcls Hread.
  pose proof (extract_run artifact filename packagetype w) as Hrun.
  cbv zeta in Hrun. rewrite Hcopy, Hcls, Hread in Hrun.
  assert (Hbody : create_body request_data w
                  = register (set_packagetype m0 packagetype) filename request_data
                      (after w [EvMkdtemp (fresh (tmpdirs w));
                                EvCopy (artifact_path artifact)
                                  (os_path_join (td_path (fresh (tmpdirs w))) filename);
                                EvRead cls
                                  (os_path_join (td_path (fresh (tmpdirs w))) filename);
                                EvCleanup (fresh (tmpdirs w))])).
  { rewrite (create_reaching_extract _ _ _ _ _ _ _ Huri Hres Hname Hdet).
    unfold bind. rewrite Hrun. reflexivity. }
  split; [exact Hrun |]. split; [exact Hbody |].
  destruct (packagetype_and_version_carried
              (set_packagetype m0 packagetype) filename uri) as [Htype Hversion].
  split; [exact Htype |]. split; [exact Hversion |].
  intros resp w' Hcreate. unfold create, atomic in Hcreate.
  rewrite Hbody in Hcreate.
  destruct (register _ _ _ _) as [[e | resp'] w2] eqn:Hreg; [discriminate |].
  inversion Hcreate; subst resp' w2; clear Hcreate.
  destruct (register_success _ _ _ _ _ _ Hreg)
    as (uri' & u & Huri' & Hvalid & _ & _ & _ & ->).
  rewrite Huri in Huri'. inversion Huri'; subst uri'.
  destruct (is_valid_build_data _ _ _ _ Hvalid) as (_ & Hv & Ht & _).
  cbn [md_version md_packagetype set_packagetype] in Hv, Ht.
  injection Ht as Hpt. exists u. cbn [content set_content after].
  split; [reflexivity |]. split; [symmetry; exact Hpt | symmetry; exact Hv].
Qed.

End Provenance.

Section ProvenanceRuns.
Import Format Content Samples.

(** The reader's object says [bdist_wheel]; the unit saved for a [.zip]
    file name says [sdist], the one saved for an [.egg] file name says
    [bdist_egg]: the package type follows the file name, not the reader. *)
Lemma reader_packagetype_overridden :
  @pkginfo_read labelling SDist "/tmp/tmp0/shelf-reader-0.1.zip" = inr labelled_wheel
  /\ @pkginfo_read labelling BDist "/tmp/tmp0/shelf-reader-0.1.egg" = inr labelled_wheel
  /\ md_packagetype labelled_wheel = VStr "bdist_wheel"
  /\ map pc_packagetype (content (snd (@create labelling upload_of_zip empty_table)))
     = ["sdist"]
  /\ map pc_packagetype (content (snd (@create labelling upload_of_egg empty_table)))
     = ["bdist_egg"].
Proof. repeat split; vm_compute; reflexivity. Qed.

Lemma packagetype_from_extension_version_from_reader_run :
  @build_data labelling (set_packagetype labelled_wheel "sdist")
     "shelf-reader-0.1.zip" "/pulp/api/v3/artifacts/1/" !! "packagetype"
  = Some (VStr "sdist")
  /\ @build_data labelling (set_packagetype labelled_wheel "sdist")
       "shelf-reader-0.1.zip" "/pulp/api/v3/artifacts/1/" !! "version"
     = Some (VStr "0.1").
Proof.
  destruct (@packagetype_from_extension_version_from_reader labelling
              upload_of_zip empty_table "/pulp/api/v3/artifacts/1/"
              "shelf-reader-0.1.zip" ".zip" "sdist" stored_artifact SDist
              labelled_wheel)
    as (_ & _ & Htype & Hversion & _);
    [vm_compute; reflexivity | reflexivity | vm_compute; reflexivity
    | vm_compute; reflexivity | reflexivity | reflexivity | reflexivity |].
  split; [exact Htype | exact Hversion].
Defined.

End ProvenanceRuns.
